(** * The S3 file mover: rule matching, configuration cache and batch handler

    A shallow embedding of [lambda_function.py].  The pure part of the
    program (file-type gate, filename filter, rule matcher, rule resolver)
    is embedded as functions into an error type, since a dictionary
    subscript or the regular-expression engine can raise.  The part that
    talks to the object store is embedded in a state-and-exception monad
    over an abstract host (store, clock, decoder), with the two module
    globals of the cache and a log of the store calls in the state. *)

From Stdlib Require Import String Ascii List ZArith Bool Lia.
From Stdlib Require Import Sorting.Sorted Sorting.Permutation.
From Stdlib Require Import Numbers.DecimalString.
Import ListNotations.
Open Scope list_scope.
Open Scope string_scope.
Set Warnings "-register-all".

(** ** Python string primitives

    A [str] is modelled as the Rocq [string] of its UTF-8 code units.
    Splitting at a separator, searching for a substring, testing a prefix
    or a suffix and comparing give the same answers on code units as on
    code points.  [str.lower] does not: it is a parameter of the matching
    engine below, and [ascii_lower] is what it computes on ASCII text. *)

Module Py.

(** [s.split(sep)] for a one-character separator: never the empty list. *)
Fixpoint split (sep : ascii) (s : string) : list string :=
  match s with
  | EmptyString => [EmptyString]
  | String c s' =>
      if Ascii.eqb c sep then EmptyString :: split sep s'
      else match split sep s' with
           | [] => [String c EmptyString]
           | w :: ws => String c w :: ws
           end
  end.

(** [sep.join(parts)]. *)
Definition join (sep : string) (parts : list string) : string :=
  String.concat sep parts.

(** [s.startswith(p)]. *)
Definition startswith (s p : string) : bool := String.prefix p s.

(** [s.endswith(p)]: [p] is [s] or a suffix of its tail. *)
Fixpoint endswith (s p : string) : bool :=
  String.eqb s p ||
  match s with
  | EmptyString => false
  | String _ s' => endswith s' p
  end.

(** [sub in s]: [sub] is a prefix of [s] or occurs in its tail. *)
Fixpoint contains (sub s : string) : bool :=
  String.prefix sub s ||
  match s with
  | EmptyString => false
  | String _ s' => contains sub s'
  end.

Definition lower_ascii (c : ascii) : ascii :=
  let n := nat_of_ascii c in
  if (65 <=? n)%nat && (n <=? 90)%nat then ascii_of_nat (n + 32) else c.

(** [s.lower()] for a string of ASCII characters: it folds [A]-[Z]. *)
Fixpoint ascii_lower (s : string) : string :=
  match s with
  | EmptyString => EmptyString
  | String c s' => String (lower_ascii c) (ascii_lower s')
  end.

(** [parts[-1]] and [parts[:-1]] on the result of a split. *)
Definition last_part (parts : list string) : string := List.last parts "".
Definition but_last (parts : list string) : list string := List.removelast parts.

(** [s.rsplit(sep, 1)] on a string that holds [sep]: the cut at the last
    occurrence of the separator. *)
Definition rsplit1 (sep : ascii) (s : string) : string * string :=
  let parts := split sep s in
  (join (String sep "") (but_last parts), last_part parts).

(** [str(n)] for an integer. *)
Definition str_of_int (n : Z) : string := NilZero.string_of_int (Z.to_int n).

End Py.

(** ** Exceptions and results *)

Inductive exn : Type :=
| KeyError (key : string)        (* a dictionary subscript on a missing key *)
| ReError (msg : string)         (* re.error: the pattern does not compile *)
| ClientError (msg : string)     (* the object store refused or was unreachable *)
| ValueError (msg : string).     (* json.loads and the like *)

(** [str(e)]: a [KeyError] prints the repr of its key. *)
Definition exn_str (e : exn) : string :=
  match e with
  | KeyError k => "'" ++ k ++ "'"
  | ReError m => m
  | ClientError m => m
  | ValueError m => m
  end.

Inductive result (A : Type) : Type :=
| Ok (a : A)
| Raise (e : exn).
Arguments Ok {A} a.
Arguments Raise {A} e.

Definition rbind {A B : Type} (m : result A) (k : A -> result B) : result B :=
  match m with
  | Ok a => k a
  | Raise e => Raise e
  end.

Declare Scope result_scope.
Delimit Scope result_scope with res.
Notation "x <- m ;; k" := (rbind m (fun x => k))
  (at level 61, m at next level, right associativity) : result_scope.

(** [d[key]]: the subscript of a dictionary field that may be missing. *)
Definition subscript {A : Type} (key : string) (field : option A) : result A :=
  match field with
  | Some a => Ok a
  | None => Raise (KeyError key)
  end.

(** [d.get(key, default)]. *)
Definition dict_get {A : Type} (field : option A) (default : A) : A :=
  match field with
  | Some a => a
  | None => default
  end.

(** The for-loop that collects one result per element, stopping at the
    first exception. *)
Fixpoint mapM {A B : Type} (f : A -> result B) (l : list A) : result (list B) :=
  match l with
  | [] => Ok []
  | a :: l' => (b <- f a ;; bs <- mapM f l' ;; Ok (b :: bs))%res
  end.

(** ** Data model

    Rules and filters are dictionaries decoded from the JSON configuration
    document.  Each key the program reads is a field of the record, typed
    as the configuration schema types it, and optional: [None] is a key
    missing from the dictionary. *)

(** A filename filter.  [f_other_keys] lists the keys of the dictionary
    that the evaluator never reads; they only count for its emptiness. *)
Inductive FilenameFilter : Type :=
  MkFilter (f_type : option string)
           (f_case_sensitive : option bool)
           (f_value : option string)
           (f_patterns : option (list FilenameFilter))
           (f_match_logic : option string)
           (f_other_keys : list string).

Definition f_type (f : FilenameFilter) :=
  let (x, _, _, _, _, _) := f in x.
Definition f_case_sensitive (f : FilenameFilter) :=
  let (_, x, _, _, _, _) := f in x.
Definition f_value (f : FilenameFilter) :=
  let (_, _, x, _, _, _) := f in x.
Definition f_patterns (f : FilenameFilter) :=
  let (_, _, _, x, _, _) := f in x.
Definition f_match_logic (f : FilenameFilter) :=
  let (_, _, _, _, x, _) := f in x.
Definition f_other_keys (f : FilenameFilter) :=
  let (_, _, _, _, _, x) := f in x.

(** The dictionary [{}]. *)
Definition empty_filter : FilenameFilter :=
  MkFilter None None None None None [].

Definition is_some {A : Type} (o : option A) : bool :=
  match o with Some _ => true | None => false end.

(** [not filename_filter]: a dictionary is falsy when it has no key. *)
Definition filter_is_empty (f : FilenameFilter) : bool :=
  negb (is_some (f_type f)) && negb (is_some (f_case_sensitive f)) &&
  negb (is_some (f_value f)) && negb (is_some (f_patterns f)) &&
  negb (is_some (f_match_logic f)) &&
  match f_other_keys f with [] => true | _ => false end.

Record RoutingRule : Type := MkRule {
  rule_name : option string;
  rule_priority : option Z;
  rule_enabled : option bool;
  rule_pattern_type : option string;
  rule_source_pattern : option string;
  rule_file_types : option (list string);
  rule_filename_filter : option FilenameFilter;
  rule_destination_bucket : option string;
  rule_destination_prefix : option string;
  rule_add_timestamp : option bool;
  rule_delete_source : option bool;
  rule_matched_keyword : option string
}.

(** ** The matching engine *)

Section Matching.

(** [str.lower], of the Python library. *)
Variable lower : string -> string.

(** [re.search(pattern, filename, flags)] as a boolean, or [re.error] when
    the pattern does not compile; the last argument is [re.IGNORECASE]. *)
Variable re_search : string -> string -> bool -> result bool.

(** [check_file_type], lines 267-273. *)
Definition check_file_type (filename : string) (allowed_types : list string) : bool :=
  match allowed_types with
  | [] => true
  | _ =>
      let file_ext :=
        if Py.contains "." filename
        then "." ++ Py.last_part (Py.split "." filename)
        else "" in
      existsb (String.eqb (lower file_ext)) (map lower allowed_types)
  end.

(** [check_filename_filter], lines 201-265. *)
Fixpoint check_filename_filter (filename : string) (filename_filter : FilenameFilter)
  {struct filename_filter} : result bool :=
  if filter_is_empty filename_filter then Ok true else
  match filename_filter with
  | MkFilter ty cs val pats logic _ =>
    let filter_type := dict_get ty "none" in
    let case_sensitive := dict_get cs false in
    let check_filename := if case_sensitive then filename else lower filename in
    if filter_type =? "starts_with" then
      (value <- subscript "value" val ;;
       let check_value := if case_sensitive then value else lower value in
       Ok (Py.startswith check_filename check_value))%res
    else if filter_type =? "not_starts_with" then
      (value <- subscript "value" val ;;
       let check_value := if case_sensitive then value else lower value in
       Ok (negb (Py.startswith check_filename check_value)))%res
    else if filter_type =? "ends_with" then
      (value <- subscript "value" val ;;
       let check_value := if case_sensitive then value else lower value in
       Ok (Py.endswith check_filename check_value))%res
    else if filter_type =? "contains" then
      (value <- subscript "value" val ;;
       let check_value := if case_sensitive then value else lower value in
       Ok (Py.contains check_value check_filename))%res
    else if filter_type =? "regex" then
      (pattern <- subscript "value" val ;;
       re_search pattern filename (negb case_sensitive))%res
    else if filter_type =? "multiple_patterns" then
      (* the loop runs over filename_filter.get('patterns', []): with no
         such key its body never runs and [results] stays empty *)
      let match_logic := dict_get logic "any" in
      (results <-
         match pats with
         | Some patterns =>
             (fix each (l : list FilenameFilter) : result (list bool) :=
                match l with
                | [] => Ok []
                | pattern :: l' =>
                    pattern_result <- check_filename_filter filename pattern ;;
                    rest <- each l' ;;
                    Ok (pattern_result :: rest)
                end) patterns
         | None => Ok []
         end ;;
       Ok (if match_logic =? "any"
           then existsb (fun b => b) results
           else forallb (fun b => b) results))%res
    else Ok true
  end.

(** The folder of a key as [matches_rule] computes it (line 153). *)
Definition source_folder_of (source_key : string) : string :=
  if Py.contains "/" source_key
  then Py.join "/" (Py.but_last (Py.split "/" source_key)) ++ "/"
  else "".

Definition valid_pattern_types : list string :=
  ["prefix_with_filename_filter"; "prefix"].

(** [matches_rule], lines 129-174. *)
Definition matches_rule (source_key filename : string) (rule : RoutingRule)
  : result bool :=
  if negb (dict_get (rule_enabled rule) true) then Ok false
  else if negb (check_file_type filename (dict_get (rule_file_types rule) [])) then Ok false
  else
    let pattern_type := dict_get (rule_pattern_type rule) "prefix" in
    let source_pattern := dict_get (rule_source_pattern rule) "" in
    let source_folder := source_folder_of source_key in
    if existsb (String.eqb pattern_type) valid_pattern_types
       && (source_folder =? source_pattern)
    then
      if pattern_type =? "prefix_with_filename_filter"
      then check_filename_filter filename
             (dict_get (rule_filename_filter rule) empty_filter)
      else Ok true
    else Ok false.

(** The loop of [find_best_destination], lines 122-127.  The log line of a
    match reads [rule['name']], which raises when the rule has no name. *)
Fixpoint first_match (source_key filename : string) (routing_rules : list RoutingRule)
  : result (option RoutingRule) :=
  match routing_rules with
  | [] => Ok None
  | rule :: rest =>
      (m <- matches_rule source_key filename rule ;;
       if m then (_ <- subscript "name" (rule_name rule) ;; Ok (Some rule))
       else first_match source_key filename rest)%res
  end.

(** [find_best_destination], lines 113-127. *)
Definition find_best_destination (source_key : string) (routing_rules : list RoutingRule)
  : result (option RoutingRule) :=
  let filename := Py.last_part (Py.split "/" source_key) in
  if Py.startswith filename "." || Py.endswith source_key "/" then Ok None
  else first_match source_key filename routing_rules.

End Matching.

(** ** The host: object store, clock and decoders

    Everything the program calls outside its own file.  The store is a
    transition system over an abstract [world]; each call answers with a
    value or an exception and a next world. *)

Record ObjectEvent : Type := MkEvent {
  ev_bucket : string;       (* record['s3']['bucket']['name'] *)
  ev_key : string           (* record['s3']['object']['key'], still encoded *)
}.

Record CopyRequest : Type := MkCopy {
  copy_source_bucket : string;
  copy_source_key : string;
  copy_bucket : string;
  copy_key : string;
  copy_metadata : list (string * string)
}.

Inductive s3_call : Type :=
| HeadObject (bucket key : string)
| GetObject (bucket key : string)
| CopyObject (request : CopyRequest)
| DeleteObject (bucket key : string).

(** The dictionaries [process_file] returns; [None] as priority stands for
    the string ['N/A']. *)
Inductive ProcessingResult : Type :=
| Success (source destination rule_used : string) (priority : option Z)
| Failure (source error : string).

Definition result_success (r : ProcessingResult) : bool :=
  match r with Success _ _ _ _ => true | Failure _ _ => false end.

(** The value [lambda_handler] returns, with the body before [json.dumps]. *)
Record Response : Type := MkResponse {
  statusCode : Z;
  body_processed_files : nat;
  body_errors : nat;
  body_successful : list ProcessingResult;
  body_failed : list ProcessingResult
}.

Record Host : Type := MkHost {
  world : Type;
  datetime : Type;
  env_CONFIG_BUCKET : option string;
  env_CONFIG_FILE_KEY : option string;
  (* head_object(...)['LastModified'], as a point on the time line *)
  head_object : world -> string -> string -> result Z * world;
  (* get_object(...)['Body'].read().decode('utf-8') *)
  get_object : world -> string -> string -> result string * world;
  (* json.loads, to a list of rule dictionaries; a document of another
     shape raises at the sort or at its key, inside the same try, and
     counts as a decoding failure here *)
  json_loads : string -> result (list RoutingRule);
  copy_object : world -> CopyRequest -> result unit * world;
  delete_object : world -> string -> string -> result unit * world;
  (* datetime.now() *)
  clock_now : world -> datetime * world;
  strftime : datetime -> string -> string;
  isoformat : datetime -> string;
  (* urllib.parse.unquote_plus(key, encoding='utf-8') *)
  unquote_plus : string -> string;
  (* str.lower *)
  host_lower : string -> string;
  host_re_search : string -> string -> bool -> result bool
}.

(** The process state: the world, the two module globals and the log of
    the calls made to the store. *)
Record State (h : Host) : Type := MkState {
  st_world : world h;
  cached_config : option (list RoutingRule);
  config_last_modified : option Z;
  st_calls : list s3_call
}.
Arguments MkState {h}.
Arguments st_world {h}.
Arguments cached_config {h}.
Arguments config_last_modified {h}.
Arguments st_calls {h}.

(** [get_fallback_config], lines 99-111: defined, called nowhere.  Its
    ['source_patterns'] key is one no function reads. *)
Definition get_fallback_config : list RoutingRule :=
  [ {| rule_name := Some "Fallback Punchh";
       rule_priority := Some 1%Z;
       rule_enabled := None;
       rule_pattern_type := Some "multi_prefix";
       rule_source_pattern := None;
       rule_file_types := Some [".csv"; ".json"];
       rule_filename_filter := None;
       rule_destination_bucket := Some "vh-punchh-prod";
       rule_destination_prefix := Some "CheckIns/raw/";
       rule_add_timestamp := None;
       rule_delete_source := None;
       rule_matched_keyword := None |} ].

(** The sort key [lambda x: x.get('priority', 999)]. *)
Definition priority_key (x : RoutingRule) : Z := dict_get (rule_priority x) 999%Z.

(** [list.sort(key=...)] is stable, so its result is the one ascending
    arrangement that keeps equal keys in their order; it is computed here
    by insertion from the right. *)
Fixpoint insert_by_key {A : Type} (key : A -> Z) (x : A) (l : list A) : list A :=
  match l with
  | [] => [x]
  | y :: l' =>
      if (key x <=? key y)%Z then x :: y :: l'
      else y :: insert_by_key key x l'
  end.

Fixpoint sort_by_key {A : Type} (key : A -> Z) (l : list A) : list A :=
  match l with
  | [] => []
  | x :: l' => insert_by_key key x (sort_by_key key l')
  end.

(** The test of line 73: both globals truthy (a list is truthy when it is
    not empty, a datetime always) and the document not newer. *)
Definition cache_is_current (cached : option (list RoutingRule))
  (stamp : option Z) (last_modified : Z) : bool :=
  match cached, stamp with
  | Some (_ :: _), Some t => (last_modified <=? t)%Z
  | _, _ => false
  end.

(** Lines 283-284: the timestamp goes between name and extension. *)
Definition timestamped_filename (filename timestamp : string) : string :=
  let (name, ext) :=
    if Py.contains "." filename then Py.rsplit1 "." filename
    else (filename, "") in
  name ++ "_" ++ timestamp ++ (if ext =? "" then "" else "." ++ ext).

Section Handler.

Variable h : Host.

Definition M (A : Type) : Type := State h -> result A * State h.

Definition ret {A : Type} (a : A) : M A := fun st => (Ok a, st).

Definition bind {A B : Type} (m : M A) (k : A -> M B) : M B :=
  fun st =>
    match m st with
    | (Ok a, st') => k a st'
    | (Raise e, st') => (Raise e, st')
    end.

Definition lift {A : Type} (r : result A) : M A := fun st => (r, st).

(** [try: body except Exception as e: handler]. *)
Definition try_except {A : Type} (body : M A) (handler : exn -> M A) : M A :=
  fun st =>
    match body st with
    | (Ok a, st') => (Ok a, st')
    | (Raise e, st') => handler e st'
    end.

Definition log_call {A : Type} (c : s3_call) (st : State h)
  (answer : result A * world h) : result A * State h :=
  (fst answer,
   MkState (snd answer) (cached_config st) (config_last_modified st)
           (st_calls st ++ [c])%list).

Definition s3_head_object (bucket key : string) : M Z :=
  fun st => log_call (HeadObject bucket key) st
              (head_object h (st_world st) bucket key).

Definition s3_get_object (bucket key : string) : M string :=
  fun st => log_call (GetObject bucket key) st
              (get_object h (st_world st) bucket key).

Definition s3_copy_object (request : CopyRequest) : M unit :=
  fun st => log_call (CopyObject request) st
              (copy_object h (st_world st) request).

Definition s3_delete_object (bucket key : string) : M unit :=
  fun st => log_call (DeleteObject bucket key) st
              (delete_object h (st_world st) bucket key).

Definition datetime_now : M (datetime h) :=
  fun st =>
    let (t, w) := clock_now h (st_world st) in
    (Ok t, MkState w (cached_config st) (config_last_modified st) (st_calls st)).

Definition read_globals : M (option (list RoutingRule) * option Z) :=
  fun st => (Ok (cached_config st, config_last_modified st), st).

Definition write_globals (rules : list RoutingRule) (stamp : Z) : M unit :=
  fun st => (Ok tt, MkState (st_world st) (Some rules) (Some stamp) (st_calls st)).

Declare Scope handler_scope.
Delimit Scope handler_scope with M.
Notation "x <- m ;; k" := (bind m (fun x => k))
  (at level 61, m at next level, right associativity) : handler_scope.

Definition config_key : string :=
  dict_get (env_CONFIG_FILE_KEY h) "config/routing-rules.json".

Definition config_bucket : string := dict_get (env_CONFIG_BUCKET h) "".

(** [load_routing_config], lines 60-97. *)
Definition load_routing_config : M (list RoutingRule) :=
  try_except
    (last_modified <- s3_head_object config_bucket config_key ;;
     globals <- read_globals ;;
     if cache_is_current (fst globals) (snd globals) last_modified
     then ret (dict_get (fst globals) [])
     else
       config_content <- s3_get_object config_bucket config_key ;;
       routing_rules <- lift (json_loads h config_content) ;;
       let routing_rules := sort_by_key priority_key routing_rules in
       _ <- write_globals routing_rules last_modified ;;
       ret routing_rules)%M
    (fun _ => ret []).

Definition s3_uri (bucket key : string) : string :=
  "s3://" ++ bucket ++ "/" ++ key.

(** The body of the [try] of [process_file], lines 278-329. *)
Definition process_file_body (source_bucket source_key : string)
  (destination_info : RoutingRule) : M ProcessingResult :=
    (let filename := Py.last_part (Py.split "/" source_key) in
     destination_filename <-
       (if dict_get (rule_add_timestamp destination_info) true
        then (t <- datetime_now ;;
              ret (timestamped_filename filename (strftime h t "%Y%m%d_%H%M%S")))
        else ret filename) ;;
     destination_prefix <-
       lift (subscript "destination_prefix"
               (rule_destination_prefix destination_info)) ;;
     let destination_key := destination_prefix ++ destination_filename in
     processed_at <- datetime_now ;;
     name <- lift (subscript "name" (rule_name destination_info)) ;;
     let metadata :=
       ([("source-bucket", source_bucket);
         ("source-key", source_key);
         ("processed-by", "configurable-file-mover");
         ("processed-at", isoformat h processed_at);
         ("routing-rule", name);
         ("rule-priority",
          match rule_priority destination_info with
          | Some p => Py.str_of_int p
          | None => "N/A"
          end)] ++
        match rule_matched_keyword destination_info with
        | Some k => [("matched-keyword", k)]
        | None => []
        end)%list in
     destination_bucket <-
       lift (subscript "destination_bucket"
               (rule_destination_bucket destination_info)) ;;
     _ <- s3_copy_object
            (MkCopy source_bucket source_key destination_bucket
                    destination_key metadata) ;;
     _ <- (if dict_get (rule_delete_source destination_info) false
           then s3_delete_object source_bucket source_key
           else ret tt) ;;
     ret (Success (s3_uri source_bucket source_key)
                  (s3_uri destination_bucket destination_key)
                  name
                  (rule_priority destination_info)))%M.

(** The result dictionary of the [except] branch, lines 331-338. *)
Definition failure_of (source_bucket source_key : string) (e : exn)
  : ProcessingResult :=
  Failure (s3_uri source_bucket source_key)
          ("Failed to process " ++ source_key ++ ": " ++ exn_str e).

(** [process_file], lines 275-338. *)
Definition process_file (source_bucket source_key : string)
  (destination_info : RoutingRule) : M ProcessingResult :=
  try_except
    (process_file_body source_bucket source_key destination_info)
    (fun e => ret (failure_of source_bucket source_key e)).

(** The loop of [lambda_handler], lines 22-46, with its two accumulators.
    A rule that [find_best_destination] returns has a name, so it is a
    non-empty dictionary and passes the test [if destination_info]. *)
Fixpoint handle_records (routing_rules : list RoutingRule)
  (records : list ObjectEvent)
  (processed_files errors : list ProcessingResult)
  : M (list ProcessingResult * list ProcessingResult) :=
  match records with
  | [] => ret (processed_files, errors)
  | record :: rest =>
      let source_bucket := ev_bucket record in
      let source_key := unquote_plus h (ev_key record) in
      if source_key =? config_key
      then handle_records routing_rules rest processed_files errors
      else
        (destination_info <-
           lift (find_best_destination (host_lower h) (host_re_search h) source_key routing_rules) ;;
         match destination_info with
         | Some rule =>
             result <- process_file source_bucket source_key rule ;;
             if result_success result
             then handle_records routing_rules rest
                    (processed_files ++ [result])%list errors
             else handle_records routing_rules rest
                    processed_files (errors ++ [result])%list
         | None => handle_records routing_rules rest processed_files errors
         end)%M
  end.

(** [lambda_handler], lines 13-58: [event] is [event['Records']]. *)
Definition lambda_handler (event : list ObjectEvent) : M Response :=
  (routing_rules <- load_routing_config ;;
   lists <- handle_records routing_rules event [] [] ;;
   let processed_files := fst lists in
   let errors := snd lists in
   ret (MkResponse (if Nat.eqb (List.length errors) 0 then 200%Z else 207%Z)
                   (List.length processed_files)
                   (List.length errors)
                   processed_files
                   errors))%M.

(** *** Notions used to state the properties of the handler *)

Definition decoded_key (record : ObjectEvent) : string :=
  unquote_plus h (ev_key record).

(** The record is not the configuration document and a rule is found. *)
Definition is_routed (routing_rules : list RoutingRule) (record : ObjectEvent) : bool :=
  negb (decoded_key record =? config_key) &&
  match find_best_destination (host_lower h) (host_re_search h) (decoded_key record) routing_rules with
  | Ok (Some _) => true
  | _ => false
  end.

(** Rule resolution raises nothing on the record. *)
Definition resolves (routing_rules : list RoutingRule) (record : ObjectEvent) : Prop :=
  decoded_key record = config_key \/
  exists d, find_best_destination (host_lower h) (host_re_search h) (decoded_key record) routing_rules
            = Ok d.

(** Loading fails: the head request fails, or the cache is not current and
    the get request or the decoding of the document fails. *)
Definition load_fails (st : State h) : Prop :=
  match head_object h (st_world st) config_bucket config_key with
  | (Raise _, _) => True
  | (Ok last_modified, w) =>
      cache_is_current (cached_config st) (config_last_modified st) last_modified
        = false /\
      match get_object h w config_bucket config_key with
      | (Raise _, _) => True
      | (Ok content, _) => exists e, json_loads h content = Raise e
      end
  end.

(** The rules an invocation that starts in [st] works with. *)
Definition loaded_rules (st : State h) : list RoutingRule :=
  match load_routing_config st with
  | (Ok routing_rules, _) => routing_rules
  | (Raise _, _) => []
  end.

(** The batch as the specification words it: the records are taken in
    their order, the configuration document and the records without a
    rule are skipped, and every other record gives the one result of its
    [process_file], run in the state the record before it left. *)
Fixpoint process_batch (routing_rules : list RoutingRule)
  (records : list ObjectEvent) (st : State h)
  : list ProcessingResult * State h :=
  match records with
  | [] => ([], st)
  | record :: rest =>
      if decoded_key record =? config_key
      then process_batch routing_rules rest st
      else
        match find_best_destination (host_lower h) (host_re_search h)
                (decoded_key record) routing_rules with
        | Ok (Some rule) =>
            match process_file (ev_bucket record) (decoded_key record) rule st with
            | (Ok result, st1) =>
                let (results, st2) := process_batch routing_rules rest st1 in
                (result :: results, st2)
            | (Raise _, st1) => process_batch routing_rules rest st1
            end
        | _ => process_batch routing_rules rest st
        end
  end.

Definition is_store_write (c : s3_call) : bool :=
  match c with
  | CopyObject _ | DeleteObject _ _ => true
  | HeadObject _ _ | GetObject _ _ => false
  end.

End Handler.

(** The ['source'] entry of a result dictionary. *)
Definition result_source (r : ProcessingResult) : string :=
  match r with
  | Success source _ _ _ => source
  | Failure source _ => source
  end.

(** The extension of a filename, as the specification words it: the dot
    and all that follows the last dot; empty for a name without dot. *)
Definition is_extension_of (filename ext : string) : Prop :=
  (Py.contains "." filename = false /\ ext = "") \/
  (exists stem suffix, filename = stem ++ "." ++ suffix /\
                       Py.contains "." suffix = false /\ ext = "." ++ suffix).

(** The folder path of a key, as the specification words it: all that
    precedes the final segment, with the separator kept; empty for a key
    without separator. *)
Definition is_folder_of (source_key folder : string) : Prop :=
  (Py.contains "/" source_key = false /\ folder = "") \/
  (exists a b, source_key = a ++ "/" ++ b /\
               Py.contains "/" b = false /\ folder = a ++ "/").

(** Ascending order of the sort keys. *)
Definition key_le {A : Type} (key : A -> Z) (x y : A) : Prop := (key x <= key y)%Z.

(** ** Sample inputs *)

(** A regular-expression engine for the examples.  It answers as
    [re.search] does on the patterns used below: ["("] does not compile,
    and a pattern of letters and digits is searched as a substring. *)
Definition sample_re_search (pattern filename : string) (ignorecase : bool)
  : result bool :=
  if pattern =? "("
  then Raise (ReError "missing ), unterminated subpattern at position 0")
  else if ignorecase
       then Ok (Py.contains (Py.ascii_lower pattern) (Py.ascii_lower filename))
       else Ok (Py.contains pattern filename).

(** The dictionary [{}] as a rule. *)
Definition blank_rule : RoutingRule :=
  MkRule None None None None None None None None None None None None.

(** [{"name": name, "pattern_type": "prefix", "source_pattern": "Inbox/",
      "destination_bucket": "dst", "destination_prefix": "Out/"}] *)
Definition inbox_rule (name : option string) : RoutingRule :=
  MkRule name None None (Some "prefix") (Some "Inbox/") None None
         (Some "dst") (Some "Out/") None None None.

(** [{"name": "filtered", "pattern_type": "prefix_with_filename_filter",
      "source_pattern": "Inbox/", "filename_filter": filter,
      "destination_bucket": "dst", "destination_prefix": "Out/"}] *)
Definition filtered_rule (filter : option FilenameFilter) : RoutingRule :=
  MkRule (Some "filtered") None None (Some "prefix_with_filename_filter")
         (Some "Inbox/") None filter (Some "dst") (Some "Out/") None None None.

(** [{"type": ty, "value": value}] *)
Definition simple_filter (ty : string) (value : option string) : FilenameFilter :=
  MkFilter (Some ty) None value None None [].

(** A host with one world: the store answers [head] to every head request,
    serves a document that decodes to [document], and answers [copy] to
    every copy request; the clock stands still; object keys are taken
    without escapes, so that decoding leaves them as they are, and all
    text is ASCII, on which [str.lower] is [Py.ascii_lower]. *)
Definition sample_host (head : result Z) (document : result (list RoutingRule))
  (copy : result unit) : Host :=
  {| world := unit;
     datetime := unit;
     env_CONFIG_BUCKET := Some "config-bucket";
     env_CONFIG_FILE_KEY := None;
     head_object := fun w _ _ => (head, w);
     get_object := fun w _ _ => (Ok "document", w);
     json_loads := fun _ => document;
     copy_object := fun w _ => (copy, w);
     delete_object := fun w _ _ => (Ok tt, w);
     clock_now := fun w => (tt, w);
     strftime := fun _ _ => "20240102_030405";
     isoformat := fun _ => "2024-01-02T03:04:05";
     unquote_plus := fun key => key;
     host_lower := Py.ascii_lower;
     host_re_search := sample_re_search |}.

(** The sample host with a store that answers [delete] to every delete
    request. *)
Definition sample_host_deleting (copy delete : result unit) : Host :=
  {| world := unit;
     datetime := unit;
     env_CONFIG_BUCKET := Some "config-bucket";
     env_CONFIG_FILE_KEY := None;
     head_object := fun w _ _ => (Ok 5%Z, w);
     get_object := fun w _ _ => (Ok "document", w);
     json_loads := fun _ => Ok [];
     copy_object := fun w _ => (copy, w);
     delete_object := fun w _ _ => (delete, w);
     clock_now := fun w => (tt, w);
     strftime := fun _ _ => "20240102_030405";
     isoformat := fun _ => "2024-01-02T03:04:05";
     unquote_plus := fun key => key;
     host_lower := Py.ascii_lower;
     host_re_search := sample_re_search |}.

(** [inbox_rule] with a priority, a flag for the deletion of the source
    and, possibly, a matched keyword. *)
Definition inbox_rule_with (name : string) (priority : option Z)
  (delete_source : option bool) (matched_keyword : option string) : RoutingRule :=
  MkRule (Some name) priority None (Some "prefix") (Some "Inbox/") None None
         (Some "dst") (Some "Out/") None delete_source matched_keyword.

(** The state of a fresh process: nothing cached, nothing called. *)
Definition fresh_state (h : Host) (w : world h) : State h :=
  MkState w None None [].

(** ** Smart routing

    [apply_smart_routing], lines 176-199, which no other function calls.
    The rule it reads is a rule dictionary that may carry one more key,
    ['smart_routing']; the keyword mapping is a dictionary, visited by
    [items()] in the order of the document. *)

Record SmartRouting : Type := MkSmart {
  smart_keyword_mapping : option (list (string * string));
  smart_default_destination : option string
}.

Record SmartRule : Type := MkSmartRule {
  sr_rule : RoutingRule;
  sr_smart_routing : option SmartRouting
}.

(** [enhanced_rule = rule.copy()] followed by the two assignments. *)
Definition enhanced_rule (rule : SmartRule) (destination_prefix matched_keyword : string)
  : SmartRule :=
  let r := sr_rule rule in
  MkSmartRule
    (MkRule (rule_name r) (rule_priority r) (rule_enabled r) (rule_pattern_type r)
            (rule_source_pattern r) (rule_file_types r) (rule_filename_filter r)
            (rule_destination_bucket r) (Some destination_prefix)
            (rule_add_timestamp r) (rule_delete_source r) (Some matched_keyword))
    (sr_smart_routing rule).

Section SmartRouting.

(** [str.lower], of the Python library. *)
Variable lower : string -> string.

(** The loop of lines 185-192; [None] when it runs to its end. *)
Fixpoint first_keyword (source_lower : string) (items : list (string * string))
  : option (string * string) :=
  match items with
  | [] => None
  | (keyword, destination_prefix) :: rest =>
      if Py.contains (lower keyword) source_lower
      then Some (keyword, destination_prefix)
      else first_keyword source_lower rest
  end.

Definition apply_smart_routing (source_key : string) (rule : SmartRule)
  : result SmartRule :=
  (smart_config <- subscript "smart_routing" (sr_smart_routing rule) ;;
   keyword_mapping <- subscript "keyword_mapping" (smart_keyword_mapping smart_config) ;;
   default_destination <-
     subscript "default_destination" (smart_default_destination smart_config) ;;
   let source_lower := lower source_key in
   match first_keyword source_lower keyword_mapping with
   | Some (keyword, destination_prefix) =>
       Ok (enhanced_rule rule destination_prefix keyword)
   | None => Ok (enhanced_rule rule default_destination "default")
   end)%res.

End SmartRouting.

(** A rule with a smart-routing configuration of two keywords. *)
Definition smart_rule : SmartRule :=
  MkSmartRule (inbox_rule (Some "smart"))
    (Some (MkSmart (Some [("invoice", "Invoices/"); ("report", "Reports/")])
                   (Some "Other/"))).

(** The filter types [check_filename_filter] has a branch for. *)
Definition known_filter_types : list string :=
  ["starts_with"; "not_starts_with"; "ends_with"; "contains"; "regex";
   "multiple_patterns"].

(** ** Counting the calls of a log *)

Definition is_copy (c : s3_call) : bool :=
  match c with CopyObject _ => true | _ => false end.

Definition is_delete (c : s3_call) : bool :=
  match c with DeleteObject _ _ => true | _ => false end.

Definition count_calls (p : s3_call -> bool) (calls : list s3_call) : nat :=
  List.length (filter p calls).

(** The key never reaches the matcher: hidden file or directory marker. *)
Definition is_hidden_key (source_key : string) : bool :=
  Py.startswith (Py.last_part (Py.split "/" source_key)) "." ||
  Py.endswith source_key "/".

(** * Facts about the string primitives *)

Section StringFacts.

Lemma prefix_empty (s : string) : String.prefix "" s = true.
Proof. destruct s; reflexivity. Qed.

Lemma prefix_char (c d : ascii) (s : string) :
  String.prefix (String c "") (String d s) = Ascii.eqb c d.
Proof.
  simpl. destruct (ascii_dec c d) as [->|Hne].
  - rewrite prefix_empty, Ascii.eqb_refl. reflexivity.
  - symmetry. apply Ascii.eqb_neq. exact Hne.
Qed.

Lemma contains_char_cons (c d : ascii) (s : string) :
  Py.contains (String c "") (String d s)
  = Ascii.eqb d c || Py.contains (String c "") s.
Proof.
  change (Py.contains (String c "") (String d s))
    with (String.prefix (String c "") (String d s) || Py.contains (String c "") s).
  rewrite prefix_char, Ascii.eqb_sym. reflexivity.
Qed.

Lemma contains_char_nil (c : ascii) : Py.contains (String c "") "" = false.
Proof. reflexivity. Qed.

Lemma split_not_nil (c : ascii) (s : string) : Py.split c s <> [].
Proof.
  destruct s as [|d s]; simpl; [discriminate|].
  destruct (Ascii.eqb d c); [discriminate|].
  destruct (Py.split c s); discriminate.
Qed.

Lemma split_cons_other (c d : ascii) (s : string) :
  Ascii.eqb d c = false ->
  exists w ws, Py.split c s = w :: ws /\ Py.split c (String d s) = String d w :: ws.
Proof.
  intros Hd. simpl. rewrite Hd.
  destruct (Py.split c s) as [|w ws] eqn:E.
  - exfalso. exact (split_not_nil c s E).
  - exists w, ws. split; reflexivity.
Qed.

Lemma concat_cons_nonempty (sep x : string) (l : list string) :
  l <> [] -> String.concat sep (x :: l) = x ++ sep ++ String.concat sep l.
Proof. destruct l; [congruence|reflexivity]. Qed.

(** Joining the parts of a split gives the string back. *)
Lemma join_split (c : ascii) (s : string) :
  Py.join (String c "") (Py.split c s) = s.
Proof.
  unfold Py.join. induction s as [|d s IH]; [reflexivity|].
  destruct (Ascii.eqb d c) eqn:Hd.
  - simpl Py.split. rewrite Hd.
    rewrite concat_cons_nonempty by apply split_not_nil.
    rewrite IH. apply Ascii.eqb_eq in Hd. subst d. reflexivity.
  - destruct (split_cons_other c d s Hd) as (w & ws & Hs & Hs').
    rewrite Hs'. rewrite Hs in IH.
    destruct ws as [|w' ws]; simpl in *; congruence.
Qed.

Lemma split_no_sep (c : ascii) (s : string) :
  Py.contains (String c "") s = false -> Py.split c s = [s].
Proof.
  induction s as [|d s IH]; [reflexivity|].
  rewrite contains_char_cons. intros H.
  apply orb_false_iff in H. destruct H as [Hd Hs].
  simpl. rewrite Hd, (IH Hs). reflexivity.
Qed.

(** Splitting around an occurrence of the separator. *)
Lemma split_app (c : ascii) (a b : string) :
  Py.split c (a ++ String c b) = (Py.split c a ++ Py.split c b)%list.
Proof.
  induction a as [|d a IH].
  - simpl. rewrite Ascii.eqb_refl. reflexivity.
  - destruct (Ascii.eqb d c) eqn:Hd.
    + simpl. rewrite Hd, IH. reflexivity.
    + destruct (split_cons_other c d a Hd) as (w & ws & Hs & Hs').
      rewrite Hs'. change (String d a ++ String c b) with (String d (a ++ String c b)).
      simpl Py.split at 1. rewrite Hd, IH, Hs. reflexivity.
Qed.

Lemma contains_char_app (c : ascii) (a b : string) :
  Py.contains (String c "") (a ++ String c b) = true.
Proof.
  induction a as [|d a IH]; simpl append; rewrite contains_char_cons.
  - rewrite Ascii.eqb_refl. reflexivity.
  - rewrite IH. apply orb_true_r.
Qed.

(** A string that holds the separator is cut at its last occurrence. *)
Lemma last_occurrence (c : ascii) (s : string) :
  Py.contains (String c "") s = true ->
  exists a b, s = a ++ String c b /\ Py.contains (String c "") b = false.
Proof.
  induction s as [|d s IH]; [discriminate|].
  rewrite contains_char_cons. intros H.
  destruct (Py.contains (String c "") s) eqn:Hs.
  - destruct (IH eq_refl) as (a & b & -> & Hb).
    exists (String d a), b. split; [reflexivity|exact Hb].
  - rewrite orb_false_r in H. apply Ascii.eqb_eq in H. subst d.
    exists "", s. split; [reflexivity|exact Hs].
Qed.

Lemma last_part_app (l : list string) (b : string) :
  Py.last_part (l ++ [b]) = b.
Proof. unfold Py.last_part. apply last_last. Qed.

Lemma but_last_app (l : list string) (b : string) :
  Py.but_last (l ++ [b]) = l.
Proof. unfold Py.but_last. apply removelast_last. Qed.

(** What the split computes at the last occurrence of the separator. *)
Lemma split_at_last (c : ascii) (a b : string) :
  Py.contains (String c "") b = false ->
  Py.last_part (Py.split c (a ++ String c b)) = b /\
  Py.join (String c "") (Py.but_last (Py.split c (a ++ String c b))) = a.
Proof.
  intros Hb. rewrite split_app, (split_no_sep c b Hb).
  rewrite last_part_app, but_last_app. split; [reflexivity|apply join_split].
Qed.

Lemma rsplit1_at_last (c : ascii) (a b : string) :
  Py.contains (String c "") b = false ->
  Py.rsplit1 c (a ++ String c b) = (a, b).
Proof.
  intros Hb. unfold Py.rsplit1.
  destruct (split_at_last c a b Hb) as [-> ->]. reflexivity.
Qed.

Lemma append_assoc (a b c : string) : (a ++ b) ++ c = a ++ (b ++ c).
Proof. induction a; simpl; congruence. Qed.

Lemma append_empty_r (a : string) : a ++ "" = a.
Proof. induction a; simpl; congruence. Qed.

Lemma ascii_lower_empty_iff (s : string) : Py.ascii_lower s = "" <-> s = "".
Proof. destruct s; simpl; split; congruence. Qed.

Lemma endswith_refl (s : string) : Py.endswith s s = true.
Proof. destruct s; simpl; [reflexivity|]. rewrite Ascii.eqb_refl, String.eqb_refl. reflexivity. Qed.

Lemma endswith_app (a b : string) : Py.endswith (a ++ b) b = true.
Proof.
  induction a as [|d a IH]; simpl append.
  - apply endswith_refl.
  - change (Py.endswith (String d (a ++ b)) b)
      with (String.eqb (String d (a ++ b)) b || Py.endswith (a ++ b) b).
    rewrite IH. apply orb_true_r.
Qed.

End StringFacts.

(** * The rule matcher *)

Section MatcherFacts.

Lemma source_folder_at_last (a b : string) :
  Py.contains "/" b = false ->
  source_folder_of (a ++ "/" ++ b) = a ++ "/".
Proof.
  intros Hb. unfold source_folder_of.
  change (a ++ "/" ++ b) with (a ++ String "/" b).
  rewrite contains_char_app.
  destruct (split_at_last "/" a b Hb) as [_ ->]. reflexivity.
Qed.

Lemma source_folder_is_folder (source_key : string) :
  is_folder_of source_key (source_folder_of source_key).
Proof.
  destruct (Py.contains "/" source_key) eqn:Hc.
  - right. destruct (last_occurrence "/" source_key Hc) as (a & b & -> & Hb).
    exists a, b. repeat split; [exact Hb|].
    apply (source_folder_at_last a b Hb).
  - left. split; [exact Hc|]. unfold source_folder_of. rewrite Hc. reflexivity.
Qed.

(** The folder path is unique, so the relation is the function. *)
Lemma is_folder_of_unique (source_key folder : string) :
  is_folder_of source_key folder -> folder = source_folder_of source_key.
Proof.
  intros [[Hc ->]|(a & b & -> & Hb & ->)].
  - unfold source_folder_of. rewrite Hc. reflexivity.
  - symmetry. apply source_folder_at_last. exact Hb.
Qed.

Lemma valid_pattern_type_iff (pattern_type : string) :
  existsb (String.eqb pattern_type) valid_pattern_types = true <->
  pattern_type = "prefix" \/ pattern_type = "prefix_with_filename_filter".
Proof.
  unfold valid_pattern_types. simpl. rewrite orb_false_r, orb_true_iff.
  rewrite !String.eqb_eq. tauto.
Qed.

Variable lower : string -> string.
Variable re_search : string -> string -> bool -> result bool.

(** A rule whose pattern type is outside the valid list: the matcher
    answers false, and raises nothing. *)
Lemma matches_rule_invalid_pattern_type (source_key filename : string) (rule : RoutingRule) :
  existsb (String.eqb (dict_get (rule_pattern_type rule) "prefix"))
          valid_pattern_types = false ->
  matches_rule lower re_search source_key filename rule = Ok false.
Proof.
  intros Hv. unfold matches_rule. rewrite Hv. simpl.
  destruct (negb (dict_get (rule_enabled rule) true)); [reflexivity|].
  destruct (negb (check_file_type lower filename (dict_get (rule_file_types rule) [])));
    reflexivity.
Qed.

(** The matcher as a conjunction of its five tests. *)
Lemma matches_rule_true_iff (source_key filename : string) (rule : RoutingRule) :
  matches_rule lower re_search source_key filename rule = Ok true <->
  dict_get (rule_enabled rule) true = true /\
  check_file_type lower filename (dict_get (rule_file_types rule) []) = true /\
  (dict_get (rule_pattern_type rule) "prefix" = "prefix" \/
   dict_get (rule_pattern_type rule) "prefix" = "prefix_with_filename_filter") /\
  source_folder_of source_key = dict_get (rule_source_pattern rule) "" /\
  (dict_get (rule_pattern_type rule) "prefix" = "prefix_with_filename_filter" ->
   check_filename_filter lower re_search filename
     (dict_get (rule_filename_filter rule) empty_filter) = Ok true).
Proof.
  unfold matches_rule.
  rewrite <- valid_pattern_type_iff.
  set (valid := existsb (String.eqb (dict_get (rule_pattern_type rule) "prefix"))
                        valid_pattern_types).
  destruct (dict_get (rule_enabled rule) true); simpl;
    [|split; [discriminate|intros (H & _); discriminate]].
  destruct (check_file_type lower filename (dict_get (rule_file_types rule) [])); simpl;
    [|split; [discriminate|intros (_ & H & _); discriminate]].
  destruct valid; simpl;
    [|split; [discriminate|intros (_ & _ & H & _); discriminate]].
  destruct (String.eqb_spec (source_folder_of source_key)
                            (dict_get (rule_source_pattern rule) "")) as [Hf|Hf];
    [|split; [discriminate|intros (_ & _ & _ & H & _); contradiction]].
  destruct (String.eqb_spec (dict_get (rule_pattern_type rule) "prefix")
                            "prefix_with_filename_filter") as [Hp|Hp].
  - split.
    + intros H. repeat split; auto.
    + intros (_ & _ & _ & _ & H). apply H. exact Hp.
  - split.
    + intros _. repeat split; auto. intros H. contradiction.
    + reflexivity.
Qed.

(** C2. The matcher returns true exactly when the rule is enabled, the
    file-type gate passes, the pattern type is one of the two valid ones,
    the folder path of the key (the key up to and with its last separator,
    empty without one) equals the source pattern as a string, and, for the
    pattern type with a filename filter, the filter accepts the filename;
    so an invalid pattern type never matches. *)
Theorem matches_rule_exact (source_key filename : string) (rule : RoutingRule) :
  let pattern_type := dict_get (rule_pattern_type rule) "prefix" in
  (exists folder,
     is_folder_of source_key folder /\
     (matches_rule lower re_search source_key filename rule = Ok true <->
      dict_get (rule_enabled rule) true = true /\
      check_file_type lower filename (dict_get (rule_file_types rule) []) = true /\
      (pattern_type = "prefix" \/ pattern_type = "prefix_with_filename_filter") /\
      folder = dict_get (rule_source_pattern rule) "" /\
      (pattern_type = "prefix_with_filename_filter" ->
       check_filename_filter lower re_search filename
         (dict_get (rule_filename_filter rule) empty_filter) = Ok true))) /\
  (pattern_type <> "prefix" /\ pattern_type <> "prefix_with_filename_filter" ->
   matches_rule lower re_search source_key filename rule <> Ok true).
Proof.
  intros pattern_type. split.
  - exists (source_folder_of source_key). split.
    + apply source_folder_is_folder.
    + apply matches_rule_true_iff.
  - intros [H1 H2] Hm. apply matches_rule_true_iff in Hm.
    destruct Hm as (_ & _ & [H|H] & _); contradiction.
Qed.

End MatcherFacts.

(** * The filename filter *)

Section FilterFacts.

Variable lower : string -> string.
Variable re_search : string -> string -> bool -> result bool.

(** The value of a filter of type [multiple_patterns]: the sub-filters are
    evaluated in order, then folded with [any] or [all]. *)
Lemma check_filename_filter_multiple (filename : string)
  (cs : option bool) (val : option string) (pats : option (list FilenameFilter))
  (logic : option string) (others : list string) :
  check_filename_filter lower re_search filename
    (MkFilter (Some "multiple_patterns") cs val pats logic others)
  = (results <- mapM (check_filename_filter lower re_search filename) (dict_get pats []) ;;
     Ok (if dict_get logic "any" =? "any"
         then existsb (fun b => b) results
         else forallb (fun b => b) results))%res.
Proof.
  cbn -[mapM]. destruct pats as [patterns|]; [|reflexivity].
  cbn [dict_get]. f_equal.
  induction patterns as [|p l IH]; [reflexivity|].
  cbn [mapM]. rewrite <- IH. reflexivity.
Qed.

Lemma mapM_all_ok {A B : Type} (f : A -> result B) (g : A -> B) (l : list A) :
  (forall a, In a l -> f a = Ok (g a)) -> mapM f l = Ok (map g l).
Proof.
  induction l as [|a l IH]; intros H; [reflexivity|].
  cbn [mapM map]. rewrite (H a (or_introl eq_refl)). cbn [rbind].
  rewrite IH; [reflexivity|]. intros b Hb. apply H. right. exact Hb.
Qed.

Lemma mapM_raise {A B : Type} (f : A -> result B) (g : A -> B)
  (pre : list A) (a : A) (post : list A) (e : exn) :
  (forall x, In x pre -> f x = Ok (g x)) -> f a = Raise e ->
  mapM f (pre ++ a :: post)%list = Raise e.
Proof.
  induction pre as [|x pre IH]; intros Hpre Ha; cbn [mapM app].
  - rewrite Ha. reflexivity.
  - rewrite (Hpre x (or_introl eq_refl)). cbn [rbind].
    rewrite IH; [reflexivity| |exact Ha]. intros y Hy. apply Hpre. right. exact Hy.
Qed.

(** A filter of one of the five types that read ['value'], without that
    key: the subscript raises. *)
Lemma check_filename_filter_missing_value (filename ty : string)
  (cs : option bool) (pats : option (list FilenameFilter))
  (logic : option string) (others : list string) :
  In ty ["starts_with"; "not_starts_with"; "ends_with"; "contains"; "regex"] ->
  check_filename_filter lower re_search filename
    (MkFilter (Some ty) cs None pats logic others)
  = Raise (KeyError "value").
Proof.
  intros Hty. simpl in Hty.
  destruct Hty as [<-|[<-|[<-|[<-|[<-|[]]]]]]; reflexivity.
Qed.

(** A filter of type [regex]: the answer, or the exception, of the engine
    on the pattern, the filename as it is and the case flag. *)
Lemma check_filename_filter_regex (filename pattern : string)
  (cs : option bool) (pats : option (list FilenameFilter))
  (logic : option string) (others : list string) :
  check_filename_filter lower re_search filename
    (MkFilter (Some "regex") cs (Some pattern) pats logic others)
  = re_search pattern filename (negb (dict_get cs false)).
Proof. reflexivity. Qed.

Lemma check_filename_filter_empty (filename : string) :
  check_filename_filter lower re_search filename empty_filter = Ok true.
Proof. reflexivity. Qed.

End FilterFacts.

Section FilterClaims.

Variable lower : string -> string.
Variable re_search : string -> string -> bool -> result bool.

(** C6 (as the code has it). A filter of type [multiple_patterns]
    evaluates each nested filter on the filename, in order, and combines
    the answers with OR when [match_logic] is ['any'] or is absent (the
    default is ['any']), and with AND for every other value; an exception
    of a nested filter is the exception of the whole. *)
Theorem multiple_patterns_any_is_default (filename : string)
  (cs : option bool) (val : option string) (pats : option (list FilenameFilter))
  (logic : option string) (others : list string) :
  let filter := MkFilter (Some "multiple_patterns") cs val pats logic others in
  let each := mapM (check_filename_filter lower re_search filename) (dict_get pats []) in
  (logic = None \/ logic = Some "any" ->
   check_filename_filter lower re_search filename filter
   = (results <- each ;; Ok (existsb (fun b => b) results))%res) /\
  (forall other, logic = Some other -> other <> "any" ->
   check_filename_filter lower re_search filename filter
   = (results <- each ;; Ok (forallb (fun b => b) results))%res).
Proof.
  intros filter each. unfold filter, each.
  rewrite check_filename_filter_multiple. cbn [dict_get]. split.
  - intros [->| ->]; reflexivity.
  - intros other -> Hne. cbn [dict_get].
    apply String.eqb_neq in Hne. rewrite Hne. reflexivity.
Qed.

End FilterClaims.

(** C6, the claim as stated fails: without [match_logic] the two nested
    answers [true] and [false] are combined to [true], not with AND. *)
Lemma multiple_patterns_absent_logic_is_or :
  let nested := [simple_filter "starts_with" (Some "A");
                 simple_filter "ends_with" (Some "Z")] in
  let filter := MkFilter (Some "multiple_patterns") None None (Some nested) None [] in
  mapM (check_filename_filter Py.ascii_lower sample_re_search "Alpha.txt") nested = Ok [true; false] /\
  check_filename_filter Py.ascii_lower sample_re_search "Alpha.txt" filter = Ok true /\
  check_filename_filter Py.ascii_lower sample_re_search "Alpha.txt" filter
    <> Ok (forallb (fun b => b) [true; false]).
Proof. cbv zeta. repeat split. discriminate. Qed.

Lemma multiple_patterns_any_is_default_witness :
  check_filename_filter Py.ascii_lower sample_re_search "Alpha.txt"
    (MkFilter (Some "multiple_patterns") None None
       (Some [simple_filter "starts_with" (Some "A");
              simple_filter "ends_with" (Some "Z")]) None [])
  = Ok true.
Proof.
  exact (proj1 (multiple_patterns_any_is_default Py.ascii_lower sample_re_search "Alpha.txt"
                  None None
                  (Some [simple_filter "starts_with" (Some "A");
                         simple_filter "ends_with" (Some "Z")]) None [])
               (or_introl eq_refl)).
Defined.

(** * The rule resolver *)

Section ResolverFacts.

Variable lower : string -> string.
Variable re_search : string -> string -> bool -> result bool.

Lemma first_match_found (source_key filename name : string)
  (pre : list RoutingRule) (rule : RoutingRule) (post : list RoutingRule) :
  (forall q, In q pre -> matches_rule lower re_search source_key filename q = Ok false) ->
  matches_rule lower re_search source_key filename rule = Ok true ->
  rule_name rule = Some name ->
  first_match lower re_search source_key filename (pre ++ rule :: post)%list = Ok (Some rule).
Proof.
  intros Hpre Hm Hn. induction pre as [|q pre IH]; cbn [first_match app].
  - rewrite Hm. cbn [rbind]. rewrite Hn. reflexivity.
  - rewrite (Hpre q (or_introl eq_refl)). cbn [rbind].
    apply IH. intros x Hx. apply Hpre. right. exact Hx.
Qed.

Lemma first_match_none (source_key filename : string) (rules : list RoutingRule) :
  (forall q, In q rules -> matches_rule lower re_search source_key filename q = Ok false) ->
  first_match lower re_search source_key filename rules = Ok None.
Proof.
  induction rules as [|q rules IH]; intros H; cbn [first_match]; [reflexivity|].
  rewrite (H q (or_introl eq_refl)). cbn [rbind].
  apply IH. intros x Hx. apply H. right. exact Hx.
Qed.

(** An exception of the matcher, or a matching rule without a name, ends
    the loop with that exception. *)
Lemma first_match_raises (source_key filename : string)
  (pre : list RoutingRule) (rule : RoutingRule) (post : list RoutingRule) (e : exn) :
  (forall q, In q pre -> matches_rule lower re_search source_key filename q = Ok false) ->
  (matches_rule lower re_search source_key filename rule = Raise e \/
   matches_rule lower re_search source_key filename rule = Ok true /\
   rule_name rule = None /\ e = KeyError "name") ->
  first_match lower re_search source_key filename (pre ++ rule :: post)%list = Raise e.
Proof.
  intros Hpre Hm. induction pre as [|q pre IH]; cbn [first_match app].
  - destruct Hm as [->|(-> & Hn & ->)]; cbn [rbind]; [reflexivity|].
    rewrite Hn. reflexivity.
  - rewrite (Hpre q (or_introl eq_refl)). cbn [rbind].
    apply IH. intros x Hx. apply Hpre. right. exact Hx.
Qed.

(** What the resolver returns is a rule of the list, with a name, on which
    the matcher answers true, and every rule before it was refused. *)
Lemma first_match_sound (source_key filename : string)
  (rules : list RoutingRule) (rule : RoutingRule) :
  first_match lower re_search source_key filename rules = Ok (Some rule) ->
  exists pre post,
    rules = (pre ++ rule :: post)%list /\
    (forall q, In q pre -> matches_rule lower re_search source_key filename q = Ok false) /\
    matches_rule lower re_search source_key filename rule = Ok true /\
    rule_name rule <> None.
Proof.
  induction rules as [|q rules IH]; cbn [first_match]; [discriminate|].
  destruct (matches_rule lower re_search source_key filename q) as [[|]|e] eqn:Hq;
    cbn [rbind]; [| |discriminate].
  - destruct (rule_name q) as [n|] eqn:Hn; cbn [subscript rbind]; [|discriminate].
    intros H. injection H as <-. exists [], rules.
    repeat split; [intros x []|exact Hq|congruence].
  - intros H. destruct (IH H) as (pre & post & -> & Hpre & Hm & Hn).
    exists (q :: pre), post. repeat split; [|exact Hm|exact Hn].
    intros x [<-|Hx]; [exact Hq|apply Hpre; exact Hx].
Qed.

Lemma find_best_destination_hidden (source_key : string) (rules : list RoutingRule) :
  Py.startswith (Py.last_part (Py.split "/" source_key)) "." = true \/
  Py.endswith source_key "/" = true ->
  find_best_destination lower re_search source_key rules = Ok None.
Proof.
  intros H. unfold find_best_destination.
  apply orb_true_iff in H. rewrite H. reflexivity.
Qed.

Lemma find_best_destination_visible (source_key : string) (rules : list RoutingRule) :
  Py.startswith (Py.last_part (Py.split "/" source_key)) "." = false ->
  Py.endswith source_key "/" = false ->
  find_best_destination lower re_search source_key rules
  = first_match lower re_search source_key (Py.last_part (Py.split "/" source_key)) rules.
Proof.
  intros H1 H2. unfold find_best_destination. rewrite H1, H2. reflexivity.
Qed.

Lemma find_best_destination_no_rule (source_key : string) :
  find_best_destination lower re_search source_key [] = Ok None.
Proof.
  unfold find_best_destination.
  destruct (Py.startswith _ "." || Py.endswith source_key "/"); reflexivity.
Qed.

(** C1 (as the code has it). For a key whose filename starts with a dot or
    that ends with the separator, the resolver returns none whatever the
    rules are.  For any other key it returns the first rule of the list on
    which the matcher returns true, provided the matcher returned false
    (and raised nothing) on every rule before it and that rule carries a
    name; and it returns none when the matcher returns false on every
    rule, the empty list included. *)
Theorem find_best_destination_first_match (source_key : string)
  (rules : list RoutingRule) :
  let filename := Py.last_part (Py.split "/" source_key) in
  (Py.startswith filename "." = true \/ Py.endswith source_key "/" = true ->
   find_best_destination lower re_search source_key rules = Ok None) /\
  (Py.startswith filename "." = false /\ Py.endswith source_key "/" = false ->
   (forall pre rule post,
      rules = (pre ++ rule :: post)%list ->
      (forall q, In q pre -> matches_rule lower re_search source_key filename q = Ok false) ->
      matches_rule lower re_search source_key filename rule = Ok true ->
      rule_name rule <> None ->
      find_best_destination lower re_search source_key rules = Ok (Some rule)) /\
   ((forall q, In q rules -> matches_rule lower re_search source_key filename q = Ok false) ->
    find_best_destination lower re_search source_key rules = Ok None)).
Proof.
  intros filename. split.
  - apply find_best_destination_hidden.
  - intros [H1 H2]. rewrite (find_best_destination_visible _ _ H1 H2). split.
    + intros pre rule post -> Hpre Hm Hn.
      destruct (rule_name rule) as [name|] eqn:E; [|congruence].
      apply (first_match_found _ _ name); assumption.
    + apply first_match_none.
Qed.

End ResolverFacts.

(** C1, the claim as stated fails: on a rule without ['name'] the matcher
    returns true, and the resolver raises instead of returning the rule. *)
Lemma find_best_destination_nameless_rule :
  matches_rule Py.ascii_lower sample_re_search "Inbox/data.csv" "data.csv" (inbox_rule None) = Ok true /\
  find_best_destination Py.ascii_lower sample_re_search "Inbox/data.csv" [inbox_rule None]
  = Raise (KeyError "name").
Proof. split; reflexivity. Qed.

Lemma find_best_destination_first_match_witness :
  find_best_destination Py.ascii_lower sample_re_search "Inbox/data.csv"
    [inbox_rule (Some "first"); inbox_rule (Some "second")]
  = Ok (Some (inbox_rule (Some "first"))).
Proof.
  refine (proj1 (proj2 (find_best_destination_first_match Py.ascii_lower sample_re_search
                          "Inbox/data.csv"
                          [inbox_rule (Some "first"); inbox_rule (Some "second")])
                       (conj eq_refl eq_refl))
                [] (inbox_rule (Some "first")) [inbox_rule (Some "second")]
                eq_refl _ eq_refl _).
  - intros q [].
  - discriminate.
Defined.

(** * The stable sort by priority *)

Section SortFacts.

Context {A : Type} (key : A -> Z).

Lemma insert_by_key_perm (x : A) (l : list A) :
  Permutation (x :: l) (insert_by_key key x l).
Proof.
  induction l as [|y l IH]; cbn [insert_by_key]; [apply Permutation_refl|].
  destruct (key x <=? key y)%Z; [apply Permutation_refl|].
  eapply perm_trans; [apply perm_swap|]. apply perm_skip. exact IH.
Qed.

Lemma sort_by_key_perm (l : list A) : Permutation l (sort_by_key key l).
Proof.
  induction l as [|x l IH]; cbn [sort_by_key]; [apply perm_nil|].
  eapply perm_trans; [apply perm_skip; exact IH|apply insert_by_key_perm].
Qed.

Lemma insert_by_key_sorted (x : A) (l : list A) :
  StronglySorted (key_le key) l -> StronglySorted (key_le key) (insert_by_key key x l).
Proof.
  induction 1 as [|y l Hl IH Hy]; cbn [insert_by_key].
  - constructor; constructor.
  - destruct (Z.leb_spec (key x) (key y)) as [Hxy|Hyx].
    + constructor; [constructor; assumption|].
      constructor; [exact Hxy|].
      eapply Forall_impl; [|exact Hy]. unfold key_le. intros; lia.
    + constructor; [exact IH|].
      eapply Permutation_Forall; [apply insert_by_key_perm|].
      constructor; [unfold key_le; lia|exact Hy].
Qed.

Lemma sort_by_key_sorted (l : list A) : StronglySorted (key_le key) (sort_by_key key l).
Proof.
  induction l as [|x l IH]; cbn [sort_by_key]; [constructor|].
  apply insert_by_key_sorted. exact IH.
Qed.

Lemma insert_by_key_filter (k : Z) (x : A) (l : list A) :
  filter (fun y => (key y =? k)%Z) (insert_by_key key x l)
  = filter (fun y => (key y =? k)%Z) (x :: l).
Proof.
  induction l as [|y l IH]; cbn [insert_by_key]; [reflexivity|].
  destruct (Z.leb_spec (key x) (key y)) as [Hxy|Hyx]; [reflexivity|].
  cbn [filter] in *. rewrite IH.
  destruct (Z.eqb_spec (key x) k), (Z.eqb_spec (key y) k); try reflexivity.
  lia.
Qed.

(** Stability: the rules of one priority keep their order. *)
Lemma sort_by_key_stable (k : Z) (l : list A) :
  filter (fun y => (key y =? k)%Z) (sort_by_key key l)
  = filter (fun y => (key y =? k)%Z) l.
Proof.
  induction l as [|x l IH]; cbn [sort_by_key]; [reflexivity|].
  rewrite insert_by_key_filter. cbn [filter]. rewrite IH. reflexivity.
Qed.

End SortFacts.

(** * The configuration cache *)

Section LoaderFacts.

Variable h : Host.

Lemma load_cache_hit (st : State h) (last_modified stamp : Z) (w : world h)
  (rule : RoutingRule) (rules : list RoutingRule) :
  head_object h (st_world st) (config_bucket h) (config_key h) = (Ok last_modified, w) ->
  cached_config st = Some (rule :: rules) ->
  config_last_modified st = Some stamp ->
  (last_modified <= stamp)%Z ->
  load_routing_config h st
  = (Ok (rule :: rules),
     MkState w (Some (rule :: rules)) (Some stamp)
       (st_calls st ++ [HeadObject (config_bucket h) (config_key h)])%list).
Proof.
  intros Hh Hc Hs Hle.
  unfold load_routing_config, try_except, bind, s3_head_object, log_call, read_globals.
  rewrite Hh. cbn [fst snd cached_config config_last_modified].
  rewrite Hc, Hs. cbn [cache_is_current].
  apply Z.leb_le in Hle. rewrite Hle. reflexivity.
Qed.

Lemma load_fresh (st : State h) (last_modified : Z) (w1 w2 : world h)
  (content : string) (rules : list RoutingRule) :
  head_object h (st_world st) (config_bucket h) (config_key h) = (Ok last_modified, w1) ->
  cache_is_current (cached_config st) (config_last_modified st) last_modified = false ->
  get_object h w1 (config_bucket h) (config_key h) = (Ok content, w2) ->
  json_loads h content = Ok rules ->
  load_routing_config h st
  = (Ok (sort_by_key priority_key rules),
     MkState w2 (Some (sort_by_key priority_key rules)) (Some last_modified)
       (st_calls st ++ [HeadObject (config_bucket h) (config_key h);
                        GetObject (config_bucket h) (config_key h)])%list).
Proof.
  intros Hh Hc Hg Hj.
  unfold load_routing_config, try_except, bind, s3_head_object, s3_get_object,
    log_call, read_globals, write_globals, lift, ret.
  rewrite Hh. cbn. rewrite Hc. cbn. rewrite Hg. cbn. rewrite Hj. cbn.
  rewrite <- app_assoc. reflexivity.
Qed.

(** On a failure the loader returns the empty list, leaves the two
    globals as they were and has read from the store only. *)
Lemma load_failure (st : State h) :
  load_fails h st ->
  exists st1,
    load_routing_config h st = (Ok [], st1) /\
    cached_config st1 = cached_config st /\
    config_last_modified st1 = config_last_modified st /\
    exists reads, st_calls st1 = (st_calls st ++ reads)%list /\
                  forallb (fun c => negb (is_store_write c)) reads = true.
Proof.
  unfold load_fails. intros Hf.
  unfold load_routing_config, try_except, bind, s3_head_object, s3_get_object,
    log_call, read_globals, write_globals, lift, ret.
  destruct (head_object h (st_world st) (config_bucket h) (config_key h))
    as [[last_modified|e] w1].
  - destruct Hf as [Hc Hg]. cbn. rewrite Hc. cbn.
    destruct (get_object h w1 (config_bucket h) (config_key h)) as [[content|e] w2].
    + destruct Hg as [e He]. cbn. rewrite He.
      eexists. split; [reflexivity|]. cbn. repeat split.
      eexists. rewrite <- app_assoc. split; reflexivity.
    + cbn. eexists. split; [reflexivity|]. cbn. repeat split.
      eexists. rewrite <- app_assoc. split; reflexivity.
  - cbn. eexists. split; [reflexivity|]. cbn. repeat split.
    eexists. split; reflexivity.
Qed.

(** The loader never raises. *)
Lemma load_returns (st : State h) :
  exists rules st1, load_routing_config h st = (Ok rules, st1).
Proof.
  unfold load_routing_config, try_except, ret.
  match goal with |- context [match ?b st with _ => _ end] => destruct (b st) as [[rules|e] st1] end;
    eauto.
Qed.

End LoaderFacts.

(** * The object processor and the batch loop *)

Section HandlerFacts.

Variable h : Host.

(** Case analysis on the next scrutinee of the goal. *)
Ltac step :=
  match goal with
  | |- context [match ?x with _ => _ end] =>
      lazymatch x with
      | context [match _ with _ => _ end] => fail
      | _ => destruct x eqn:?
      end
  end.

(** [process_file] returns a result dictionary and never raises: a success
    for the object, or a failure that carries the message of the exception
    its body raised. *)
Lemma process_file_returns (source_bucket source_key : string)
  (destination_info : RoutingRule) (st : State h) :
  exists r st',
    process_file h source_bucket source_key destination_info st = (Ok r, st') /\
    ((exists destination name priority,
        r = Success (s3_uri source_bucket source_key) destination name priority) \/
     (exists e,
        r = Failure (s3_uri source_bucket source_key)
              ("Failed to process " ++ source_key ++ ": " ++ exn_str e))).
Proof.
  unfold process_file, process_file_body, failure_of, try_except, bind, lift, ret, subscript, datetime_now,
    s3_copy_object, s3_delete_object, log_call.
  repeat (step; cbn [fst snd] in *);
    repeat match goal with
           | H : (_, _) = (_, _) |- _ => inversion H; subst; clear H
           end;
    try discriminate;
    do 2 eexists; (split; [reflexivity|]); eauto.
Qed.

Lemma handle_records_config_key (routing_rules : list RoutingRule)
  (record : ObjectEvent) (rest : list ObjectEvent)
  (processed_files errors : list ProcessingResult) :
  decoded_key h record = config_key h ->
  handle_records h routing_rules (record :: rest) processed_files errors
  = handle_records h routing_rules rest processed_files errors.
Proof.
  unfold decoded_key. intros Hk. cbn [handle_records].
  rewrite Hk, String.eqb_refl. reflexivity.
Qed.

(** Records that name the configuration document leave no trace. *)
Lemma handle_records_skips (routing_rules : list RoutingRule)
  (pre post : list ObjectEvent) (record : ObjectEvent) :
  decoded_key h record = config_key h ->
  forall processed_files errors st,
    handle_records h routing_rules (pre ++ record :: post)%list processed_files errors st
    = handle_records h routing_rules (pre ++ post)%list processed_files errors st.
Proof.
  intros Hk. induction pre as [|r pre IH]; intros processed_files errors st.
  - cbn [app]. rewrite (handle_records_config_key _ _ _ _ _ Hk). reflexivity.
  - cbn [app handle_records].
    destruct (unquote_plus h (ev_key r) =? config_key h); [apply IH|].
    unfold bind, lift.
    destruct (find_best_destination _ _ _ routing_rules) as [[rule|]|e]; [| |reflexivity].
    + destruct (process_file h (ev_bucket r) (unquote_plus h (ev_key r)) rule st)
        as [[result|e] st'] ; [|reflexivity].
      destruct (result_success result); apply IH.
    + apply IH.
Qed.

(** With no rule, the loop touches nothing and records nothing. *)
Lemma handle_records_no_rule (records : list ObjectEvent)
  (processed_files errors : list ProcessingResult) (st : State h) :
  handle_records h [] records processed_files errors st
  = (Ok (processed_files, errors), st).
Proof.
  induction records as [|r records IH]; cbn [handle_records]; [reflexivity|].
  destruct (unquote_plus h (ev_key r) =? config_key h); [exact IH|].
  unfold bind, lift. rewrite find_best_destination_no_rule. exact IH.
Qed.

(** When resolution raises on no record, the loop returns; it adds one
    result per routed record, successes to the first list and failures to
    the second. *)
Lemma handle_records_returns (routing_rules : list RoutingRule)
  (records : list ObjectEvent) :
  (forall record, In record records -> resolves h routing_rules record) ->
  forall processed_files errors st,
  exists successes failures st',
    handle_records h routing_rules records processed_files errors st
    = (Ok ((processed_files ++ successes)%list, (errors ++ failures)%list), st') /\
    Forall (fun r => result_success r = true) successes /\
    Forall (fun r => result_success r = false) failures /\
    (List.length successes + List.length failures
     = List.length (filter (is_routed h routing_rules) records))%nat.
Proof.
  induction records as [|r records IH]; intros Hres processed_files errors st.
  - exists [], [], st. cbn [handle_records filter List.length].
    rewrite !app_nil_r. repeat split; constructor.
  - assert (Hrest : forall record, In record records -> resolves h routing_rules record)
      by (intros x Hx; apply Hres; right; exact Hx).
    specialize (IH Hrest).
    cbn [handle_records filter]. unfold is_routed at 1, decoded_key.
    destruct (String.eqb_spec (unquote_plus h (ev_key r)) (config_key h)) as [Hk|Hk].
    + cbn [negb andb]. apply IH.
    + cbn [negb andb]. unfold bind, lift.
      destruct (Hres r (or_introl eq_refl)) as [Hc|[d Hd]]; [contradiction|].
      unfold decoded_key in Hd. rewrite Hd.
      destruct d as [rule|]; [|apply IH].
      destruct (process_file_returns (ev_bucket r) (unquote_plus h (ev_key r)) rule st)
        as (result & st1 & -> & _).
      destruct (result_success result) eqn:Hs.
      * destruct (IH (processed_files ++ [result])%list errors st1)
          as (ss & fs & st' & -> & Hss & Hfs & Hlen).
        exists (result :: ss), fs, st'. rewrite <- app_assoc. cbn [app List.length].
        repeat split; [constructor; assumption|assumption|lia].
      * destruct (IH processed_files (errors ++ [result])%list st1)
          as (ss & fs & st' & -> & Hss & Hfs & Hlen).
        exists ss, (result :: fs), st'. rewrite <- app_assoc. cbn [app List.length].
        repeat split; [assumption|constructor; assumption|lia].
Qed.

(** When resolution raises on no record, the loop is the batch of the
    specification: it returns the results of [process_batch], successes
    appended to the first list and failures to the second, each in the
    order of the records, and leaves the state [process_batch] leaves. *)
Lemma handle_records_batch (routing_rules : list RoutingRule)
  (records : list ObjectEvent) :
  (forall record, In record records -> resolves h routing_rules record) ->
  forall processed_files errors st,
    handle_records h routing_rules records processed_files errors st
    = (Ok ((processed_files
            ++ filter result_success
                 (fst (process_batch h routing_rules records st)))%list,
           (errors
            ++ filter (fun r => negb (result_success r))
                 (fst (process_batch h routing_rules records st)))%list),
       snd (process_batch h routing_rules records st)).
Proof.
  induction records as [|r records IH]; intros Hres processed_files errors st.
  - cbn. rewrite !app_nil_r. reflexivity.
  - assert (Hrest : forall record, In record records -> resolves h routing_rules record)
      by (intros x Hx; apply Hres; right; exact Hx).
    specialize (IH Hrest).
    cbn [handle_records process_batch]. unfold decoded_key.
    destruct (String.eqb_spec (unquote_plus h (ev_key r)) (config_key h)) as [Hk|Hk];
      [apply IH|].
    unfold bind, lift.
    destruct (Hres r (or_introl eq_refl)) as [Hc|[d Hd]]; [contradiction|].
    unfold decoded_key in Hd. rewrite Hd.
    destruct d as [rule|]; [|apply IH].
    destruct (process_file_returns (ev_bucket r) (unquote_plus h (ev_key r)) rule st)
      as (result & st1 & Hrun & _).
    rewrite Hrun.
    destruct (process_batch h routing_rules records st1) as [results st2] eqn:Hb.
    cbn [fst snd filter].
    destruct (result_success result) eqn:Hs; cbn [negb];
      rewrite IH, Hb; cbn [fst snd]; rewrite <- app_assoc; reflexivity.
Qed.

(** An exception of the resolver on a record, whatever its place in the
    batch, ends the loop with that exception. *)
Lemma handle_records_raises_at (routing_rules : list RoutingRule)
  (pre : list ObjectEvent) (record : ObjectEvent) (post : list ObjectEvent)
  (e : exn) :
  (forall r, In r pre -> resolves h routing_rules r) ->
  decoded_key h record <> config_key h ->
  find_best_destination (host_lower h) (host_re_search h) (decoded_key h record)
    routing_rules = Raise e ->
  forall processed_files errors st,
    fst (handle_records h routing_rules (pre ++ record :: post)%list
           processed_files errors st) = Raise e.
Proof.
  intros Hpre Hk Hf.
  induction pre as [|r pre IH]; intros processed_files errors st.
  - cbn [app handle_records]. unfold decoded_key in *.
    apply String.eqb_neq in Hk. rewrite Hk.
    unfold bind, lift. rewrite Hf. reflexivity.
  - assert (Hrest : forall x, In x pre -> resolves h routing_rules x)
      by (intros x Hx; apply Hpre; right; exact Hx).
    specialize (IH Hrest).
    cbn [app handle_records].
    destruct (String.eqb_spec (unquote_plus h (ev_key r)) (config_key h)) as [Hc|Hc];
      [apply IH|].
    unfold bind, lift.
    destruct (Hpre r (or_introl eq_refl)) as [Hc'|[d Hd]]; [contradiction|].
    unfold decoded_key in Hd. rewrite Hd.
    destruct d as [rule|]; [|apply IH].
    destruct (process_file_returns (ev_bucket r) (unquote_plus h (ev_key r)) rule st)
      as (result & st1 & Hrun & _).
    rewrite Hrun. destruct (result_success result); apply IH.
Qed.

End HandlerFacts.

(** * The file-type gate *)

Section GateFacts.

Variable lower : string -> string.

Lemma file_ext_is_extension (filename : string) :
  is_extension_of filename
    (if Py.contains "." filename
     then "." ++ Py.last_part (Py.split "." filename)
     else "").
Proof.
  destruct (Py.contains "." filename) eqn:Hc.
  - right. destruct (last_occurrence "." filename Hc) as (a & b & -> & Hb).
    exists a, b. repeat split; [exact Hb|].
    destruct (split_at_last "." a b Hb) as [-> _]. reflexivity.
  - left. split; [exact Hc|reflexivity].
Qed.

Lemma check_file_type_listed (filename : string) (allowed_types : list string) :
  allowed_types <> [] ->
  check_file_type lower filename allowed_types = true <->
  exists t, In t allowed_types /\
            lower t =
            lower (if Py.contains "." filename
                   then "." ++ Py.last_part (Py.split "." filename)
                   else "").
Proof.
  intros Hne. destruct allowed_types as [|t0 l]; [congruence|].
  unfold check_file_type. rewrite existsb_exists. split.
  - intros (x & Hin & Hx). apply in_map_iff in Hin. destruct Hin as (t & <- & Ht).
    exists t. split; [exact Ht|]. apply String.eqb_eq in Hx. congruence.
  - intros (t & Ht & Hx). exists (lower t). split.
    + apply in_map. exact Ht.
    + apply String.eqb_eq. congruence.
Qed.

(** C7. The gate accepts every filename when the list is empty.  With a
    non-empty list it accepts exactly when the extension (the dot and all
    that follows the last dot of the filename, empty without a dot) and
    an entry of the list have the same [str.lower].  Since [str.lower]
    gives the empty string on the empty string only, a filename without a
    dot passes exactly when the empty string is listed; and since it
    lowers [.CSV] to what it lowers [.csv] to, [a.CSV] passes [.csv]. *)
Theorem check_file_type_exact (filename : string) (allowed_types : list string) :
  check_file_type lower filename [] = true /\
  (exists ext,
     is_extension_of filename ext /\
     (allowed_types <> [] ->
      (check_file_type lower filename allowed_types = true <->
       exists t, In t allowed_types /\ lower t = lower ext))) /\
  ((forall s, lower s = "" <-> s = "") ->
   Py.contains "." filename = false -> allowed_types <> [] ->
   (check_file_type lower filename allowed_types = true <-> In "" allowed_types)) /\
  (lower ".CSV" = lower ".csv" ->
   check_file_type lower "a.CSV" [".csv"] = true).
Proof.
  split; [reflexivity|]. split; [|split].
  - eexists. split; [apply file_ext_is_extension|].
    apply check_file_type_listed.
  - intros Hempty Hc Hne. rewrite (check_file_type_listed _ _ Hne), Hc. split.
    + intros (t & Ht & Hl). rewrite (proj2 (Hempty "") eq_refl) in Hl.
      apply (proj1 (Hempty t)) in Hl. subst t. exact Ht.
    + intros Hin. exists "". split; [exact Hin|reflexivity].
  - intros Hcsv. apply (check_file_type_listed "a.CSV" [".csv"]); [discriminate|].
    exists ".csv". split; [left; reflexivity|]. symmetry. exact Hcsv.
Qed.

End GateFacts.

(** * The destination filename *)

Section DestinationFacts.

(** A filename with a non-empty extension: the timestamp goes before the
    last dot. *)
Lemma timestamped_filename_extension (stem ext timestamp : string) :
  Py.contains "." ext = false -> ext <> "" ->
  timestamped_filename (stem ++ "." ++ ext) timestamp
  = stem ++ "_" ++ timestamp ++ "." ++ ext.
Proof.
  intros Hd Hne. unfold timestamped_filename.
  change (stem ++ "." ++ ext) with (stem ++ String "." ext).
  rewrite contains_char_app, (rsplit1_at_last "." stem ext Hd).
  apply String.eqb_neq in Hne. rewrite Hne. reflexivity.
Qed.

(** A filename without a dot: the timestamp is appended. *)
Lemma timestamped_filename_no_dot (filename timestamp : string) :
  Py.contains "." filename = false ->
  timestamped_filename filename timestamp = filename ++ "_" ++ timestamp.
Proof.
  intros Hd. unfold timestamped_filename. rewrite Hd. cbn [String.eqb].
  f_equal. f_equal. apply append_empty_r.
Qed.

(** C8, where the code departs from the claim: for a filename that ends
    with a dot the timestamp is appended to the part before that dot and
    the dot is lost, so the result is not the source filename with the
    timestamp inserted. *)
Theorem timestamped_filename_trailing_dot :
  (forall stem timestamp,
     timestamped_filename (stem ++ ".") timestamp = stem ++ "_" ++ timestamp) /\
  timestamped_filename "report." "20240102_030405" = "report_20240102_030405" /\
  timestamped_filename "report." "20240102_030405" <> "report_20240102_030405." /\
  timestamped_filename "report." "20240102_030405" <> "report._20240102_030405" /\
  (let host := sample_host (Ok 5%Z) (Ok []) (Ok tt) in
   fst (process_file host "src" "Inbox/report." (inbox_rule (Some "inbox"))
          (fresh_state host tt))
   = Ok (Success "s3://src/Inbox/report." "s3://dst/Out/report_20240102_030405"
           "inbox" None)).
Proof.
  split; [|repeat split; discriminate].
  intros stem timestamp. unfold timestamped_filename.
  change (stem ++ ".") with (stem ++ String "." "").
  rewrite contains_char_app, (rsplit1_at_last "." stem "" eq_refl).
  cbn [String.eqb]. f_equal. f_equal. apply append_empty_r.
Qed.

End DestinationFacts.

(** * The batch handler *)

Section HandlerClaims.

Variable h : Host.

(** Case analysis on the next scrutinee of the goal. *)
Ltac body_step :=
  match goal with
  | |- context [match ?x with _ => _ end] =>
      lazymatch x with
      | context [match _ with _ => _ end] => fail
      | _ => destruct x eqn:?
      end
  end.

(** The copy that [process_file] issues for a rule with the three
    subscripted keys: its key is the prefix followed by the destination
    filename, which is the filename itself or the timestamped one. *)
Lemma process_file_copy_key (source_bucket source_key prefix name bucket : string)
  (destination_info : RoutingRule) (st : State h) :
  rule_destination_prefix destination_info = Some prefix ->
  rule_name destination_info = Some name ->
  rule_destination_bucket destination_info = Some bucket ->
  let filename := Py.last_part (Py.split "/" source_key) in
  exists destination_filename metadata,
    (if dict_get (rule_add_timestamp destination_info) true
     then exists t, destination_filename
                    = timestamped_filename filename (strftime h t "%Y%m%d_%H%M%S")
     else destination_filename = filename) /\
    In (CopyObject (MkCopy source_bucket source_key bucket
                           (prefix ++ destination_filename) metadata))
       (st_calls (snd (process_file h source_bucket source_key destination_info st))).
Proof.
  intros Hp Hn Hb filename.
  unfold process_file, process_file_body, failure_of, try_except, bind, lift, ret, subscript, datetime_now,
    s3_copy_object, s3_delete_object, log_call.
  rewrite Hp, Hn, Hb. fold filename.
  destruct (dict_get (rule_add_timestamp destination_info) true).
  - destruct (clock_now h (st_world st)) as [t w1] eqn:E1. cbn.
    destruct (clock_now h w1) as [t2 w2] eqn:E2. cbn.
    do 2 eexists. split; [exists t; reflexivity|].
    destruct (copy_object h w2 _) as [[[]|e] w3]; cbn.
    + destruct (dict_get (rule_delete_source destination_info) false); cbn.
      * destruct (delete_object h w3 source_bucket source_key) as [[[]|e] w4]; cbn;
          rewrite ?in_app_iff; cbn; eauto.
      * rewrite in_app_iff. cbn. eauto.
    + rewrite in_app_iff. cbn. eauto.
  - cbn. destruct (clock_now h (st_world st)) as [t2 w2] eqn:E2. cbn.
    do 2 eexists. split; [reflexivity|].
    destruct (copy_object h w2 _) as [[[]|e] w3]; cbn.
    + destruct (dict_get (rule_delete_source destination_info) false); cbn.
      * destruct (delete_object h w3 source_bucket source_key) as [[[]|e] w4]; cbn;
          rewrite ?in_app_iff; cbn; eauto.
      * rewrite in_app_iff. cbn. eauto.
    + rewrite in_app_iff. cbn. eauto.
Qed.

(** The handler on an empty rule list. *)
Lemma lambda_handler_no_rule (event : list ObjectEvent) (st st1 : State h) :
  load_routing_config h st = (Ok [], st1) ->
  lambda_handler h event st = (Ok (MkResponse 200 0 0 [] []), st1).
Proof.
  intros Hl. unfold lambda_handler, bind. rewrite Hl.
  rewrite handle_records_no_rule. reflexivity.
Qed.

(** An exception of the resolver on the first record leaves the handler. *)
Lemma lambda_handler_aborts (record : ObjectEvent) (rest : list ObjectEvent)
  (st : State h) (e : exn) :
  decoded_key h record <> config_key h ->
  find_best_destination (host_lower h) (host_re_search h) (decoded_key h record) (loaded_rules h st)
  = Raise e ->
  fst (lambda_handler h (record :: rest) st) = Raise e.
Proof.
  intros Hk Hf. unfold lambda_handler, bind. unfold loaded_rules in Hf.
  destruct (load_returns h st) as (rules & st1 & Hl). rewrite Hl in *.
  cbn [handle_records]. unfold decoded_key in *.
  apply String.eqb_neq in Hk. rewrite Hk. unfold bind, lift. rewrite Hf. reflexivity.
Qed.

(** C5. When loading the configuration fails (the head request fails, or
    the get request or the decoding fails), the loader returns the empty
    rule list, which is not the fallback list, and leaves the cache as it
    was; the invocation then returns normally, with status 200 and no
    result in either list, and has issued no copy and no delete. *)
Theorem load_failure_skips_batch (st : State h) (event : list ObjectEvent) :
  load_fails h st ->
  exists st1,
    load_routing_config h st = (Ok [], st1) /\
    [] <> get_fallback_config /\
    cached_config st1 = cached_config st /\
    config_last_modified st1 = config_last_modified st /\
    lambda_handler h event st = (Ok (MkResponse 200 0 0 [] []), st1) /\
    exists reads, st_calls st1 = (st_calls st ++ reads)%list /\
                  forallb (fun c => negb (is_store_write c)) reads = true.
Proof.
  intros Hf. destruct (load_failure h st Hf) as (st1 & Hl & Hc & Hm & Hreads).
  exists st1. repeat split; try assumption; [discriminate|].
  apply lambda_handler_no_rule. exact Hl.
Qed.

(** An exception of the resolver on a record of the batch, whatever its
    place, leaves the handler. *)
Lemma lambda_handler_raises_at (pre : list ObjectEvent) (record : ObjectEvent)
  (post : list ObjectEvent) (st : State h) (e : exn) :
  (forall r, In r pre -> resolves h (loaded_rules h st) r) ->
  decoded_key h record <> config_key h ->
  find_best_destination (host_lower h) (host_re_search h) (decoded_key h record)
    (loaded_rules h st) = Raise e ->
  fst (lambda_handler h (pre ++ record :: post)%list st) = Raise e.
Proof.
  intros Hpre Hk Hf. unfold lambda_handler, bind. unfold loaded_rules in *.
  destruct (load_returns h st) as (rules & st1 & Hl). rewrite Hl in *.
  pose proof (handle_records_raises_at h rules pre record post e Hpre Hk Hf [] [] st1)
    as Hr.
  destruct (handle_records h rules (pre ++ record :: post)%list [] [] st1)
    as [[lists|e'] st2]; cbn [fst] in *; [discriminate|].
  injection Hr as ->. reflexivity.
Qed.

(** C9 (as the code has it). [process_file] never raises: what its body
    returns (a success for the object) it returns, and an exception [e]
    of its body it turns into the failure of the object with the message
    [Failed to process <key>: <str(e)>], in the state the body left.
    When rule resolution raises on no record of the batch, the handler
    returns: the results are those of [process_file] on the routed
    records, in order, each run in the state the one before left; the
    successes make the first list and the failures the second, the two
    counts are their lengths, and the status is 207 when the second list
    is not empty and 200 when it is.  An exception of rule resolution on
    a record, whatever its place in the batch, leaves the handler. *)
Theorem batch_summary (event : list ObjectEvent) (st : State h) :
  (forall source_bucket source_key destination_info st0,
     process_file h source_bucket source_key destination_info st0
     = match process_file_body h source_bucket source_key destination_info st0 with
       | (Ok r, st1) => (Ok r, st1)
       | (Raise e, st1) =>
           (Ok (Failure (s3_uri source_bucket source_key)
                  ("Failed to process " ++ source_key ++ ": " ++ exn_str e)), st1)
       end) /\
  (forall source_bucket source_key destination_info st0 r st1,
     process_file_body h source_bucket source_key destination_info st0 = (Ok r, st1) ->
     exists destination name priority,
       r = Success (s3_uri source_bucket source_key) destination name priority) /\
  ((forall record, In record event -> resolves h (loaded_rules h st) record) ->
   let batch := process_batch h (loaded_rules h st) event
                  (snd (load_routing_config h st)) in
   let successful := filter result_success (fst batch) in
   let failed := filter (fun r => negb (result_success r)) (fst batch) in
   lambda_handler h event st
   = (Ok (MkResponse (match failed with [] => 200%Z | _ :: _ => 207%Z end)
            (List.length successful) (List.length failed) successful failed),
      snd batch)) /\
  (forall pre record post e,
     event = (pre ++ record :: post)%list ->
     (forall r, In r pre -> resolves h (loaded_rules h st) r) ->
     decoded_key h record <> config_key h ->
     find_best_destination (host_lower h) (host_re_search h) (decoded_key h record)
       (loaded_rules h st) = Raise e ->
     fst (lambda_handler h event st) = Raise e).
Proof.
  split; [|split; [|split]].
  - intros source_bucket source_key destination_info st0.
    unfold process_file, try_except, failure_of, ret.
    destruct (process_file_body h source_bucket source_key destination_info st0)
      as [[r|e] st1]; reflexivity.
  - intros source_bucket source_key destination_info st0 r st1.
    unfold process_file_body, bind, lift, ret, subscript, datetime_now,
      s3_copy_object, s3_delete_object, log_call.
    repeat (body_step; cbn [fst snd] in * );
      intros Hrun; inversion Hrun; subst; eauto.
  - intros Hres. cbv zeta. unfold lambda_handler, bind. unfold loaded_rules in *.
    destruct (load_returns h st) as (rules & st1 & Hl). rewrite Hl in *.
    cbn [snd]. rewrite (handle_records_batch h rules event Hres [] [] st1).
    cbn [app fst snd ret].
    destruct (filter (fun r => negb (result_success r))
                (fst (process_batch h rules event st1))); reflexivity.
  - intros pre record post e ->. apply lambda_handler_raises_at.
Qed.

(** C10. A record whose decoded key is the key of the configuration
    document is skipped: the handler returns what it returns, and leaves
    the state (the log of store calls with it) it leaves, for the batch
    without that record, whatever the rules are. *)
Theorem config_document_record_is_skipped (pre post : list ObjectEvent)
  (record : ObjectEvent) (st : State h) :
  decoded_key h record = config_key h ->
  lambda_handler h (pre ++ record :: post)%list st
  = lambda_handler h (pre ++ post)%list st.
Proof.
  intros Hk. unfold lambda_handler, bind.
  destruct (load_routing_config h st) as [[rules|e] st1]; [|reflexivity].
  rewrite (handle_records_skips h rules pre post record Hk). reflexivity.
Qed.

End HandlerClaims.

(** * Misconfigured rules *)

Section MisconfiguredRules.

Variable h : Host.

(** C3 (as the code has it). A rule with an invalid pattern type
    evaluates to false on every input and raises nothing.  For a rule of
    type [prefix_with_filename_filter] that is enabled, passes the gate
    and has the folder of the key as its source pattern: without
    ['filename_filter'] it matches, since the empty filter accepts every
    filename; with a filter of type [starts_with], [not_starts_with],
    [ends_with], [contains] or [regex] that lacks ['value'] the matcher
    raises [KeyError]; with a [regex] filter it raises what the engine
    raises on the pattern.  An exception of the matcher is caught
    nowhere: wherever the rule stands in the list, behind rules that do
    not match, it leaves the loop of the resolver and, for a key that is
    not hidden, the resolver; and an exception of the resolver on a
    record, wherever the record stands in the batch, leaves the handler. *)
Theorem misconfigured_rule_behaviour (source_key filename : string)
  (rule : RoutingRule) :
  let lower := host_lower h in
  let re_search := host_re_search h in
  let pattern_type := dict_get (rule_pattern_type rule) "prefix" in
  (pattern_type <> "prefix" /\ pattern_type <> "prefix_with_filename_filter" ->
   matches_rule lower re_search source_key filename rule = Ok false) /\
  (dict_get (rule_enabled rule) true = true /\
   check_file_type lower filename (dict_get (rule_file_types rule) []) = true /\
   pattern_type = "prefix_with_filename_filter" /\
   source_folder_of source_key = dict_get (rule_source_pattern rule) "" ->
   (rule_filename_filter rule = None ->
    matches_rule lower re_search source_key filename rule = Ok true) /\
   (forall ty cs pats logic others,
      In ty ["starts_with"; "not_starts_with"; "ends_with"; "contains"; "regex"] ->
      rule_filename_filter rule = Some (MkFilter (Some ty) cs None pats logic others) ->
      matches_rule lower re_search source_key filename rule = Raise (KeyError "value")) /\
   (forall pattern cs pats logic others e,
      rule_filename_filter rule
      = Some (MkFilter (Some "regex") cs (Some pattern) pats logic others) ->
      re_search pattern filename (negb (dict_get cs false)) = Raise e ->
      matches_rule lower re_search source_key filename rule = Raise e)) /\
  (forall e pre post,
     (forall q, In q pre ->
        matches_rule lower re_search source_key filename q = Ok false) ->
     matches_rule lower re_search source_key filename rule = Raise e ->
     first_match lower re_search source_key filename (pre ++ rule :: post)%list
     = Raise e /\
     (filename = Py.last_part (Py.split "/" source_key) ->
      is_hidden_key source_key = false ->
      find_best_destination lower re_search source_key (pre ++ rule :: post)%list
      = Raise e)) /\
  (forall e pre record post st,
     (forall r, In r pre -> resolves h (loaded_rules h st) r) ->
     decoded_key h record <> config_key h ->
     find_best_destination lower re_search (decoded_key h record) (loaded_rules h st)
     = Raise e ->
     fst (lambda_handler h (pre ++ record :: post)%list st) = Raise e).
Proof.
  intros lower re_search pattern_type. split; [|split; [|split]].
  - intros [H1 H2]. apply matches_rule_invalid_pattern_type.
    destruct (existsb _ valid_pattern_types) eqn:E; [|reflexivity].
    apply valid_pattern_type_iff in E. fold pattern_type in E. tauto.
  - intros (He & Hg & Hp & Hf).
    assert (Hm : matches_rule lower re_search source_key filename rule
                 = check_filename_filter lower re_search filename
                     (dict_get (rule_filename_filter rule) empty_filter)).
    { unfold matches_rule. fold pattern_type. rewrite He, Hg, Hp, Hf.
      rewrite String.eqb_refl. reflexivity. }
    rewrite Hm. repeat split.
    + intros ->. reflexivity.
    + intros ty cs pats logic others Hty ->. cbn [dict_get].
      apply check_filename_filter_missing_value. exact Hty.
    + intros pattern cs pats logic others e -> He'. cbn [dict_get].
      rewrite check_filename_filter_regex. exact He'.
  - intros e pre post Hpre Hm.
    assert (Hloop : first_match lower re_search source_key filename
                      (pre ++ rule :: post)%list = Raise e)
      by (apply first_match_raises; [exact Hpre|left; exact Hm]).
    split; [exact Hloop|].
    intros -> Hh. unfold is_hidden_key in Hh. apply orb_false_iff in Hh.
    rewrite (find_best_destination_visible _ _ _ _ (proj1 Hh) (proj2 Hh)).
    exact Hloop.
  - intros e pre record post st. apply lambda_handler_raises_at.
Qed.

End MisconfiguredRules.

(** * The cache on an empty rule list *)

Section CacheSlip.

Variable h : Host.

(** C4, where the code departs from the claim: a cached rule list that is
    empty counts as no cache.  Whatever the timestamps, the head request is
    followed by a get request; on the sample host the document is fetched
    and decoded again although it is no newer than the cache. *)
Theorem load_routing_config_empty_cache_refetches :
  (forall (st : State h) last_modified w,
     cached_config st = Some [] ->
     head_object h (st_world st) (config_bucket h) (config_key h)
     = (Ok last_modified, w) ->
     In (GetObject (config_bucket h) (config_key h))
        (st_calls (snd (load_routing_config h st)))) /\
  (let host := sample_host (Ok 5%Z) (Ok []) (Ok tt) in
   load_routing_config host (MkState (tt : world host) (Some []) (Some 5%Z) [])
   = (Ok [],
      MkState (tt : world host) (Some []) (Some 5%Z)
        [HeadObject "config-bucket" "config/routing-rules.json";
         GetObject "config-bucket" "config/routing-rules.json"])).
Proof.
  split; [|reflexivity].
  intros st last_modified w Hc Hh.
  unfold load_routing_config, try_except, bind, s3_head_object, s3_get_object,
    log_call, read_globals, write_globals, lift, ret.
  rewrite Hh. cbn. rewrite Hc. cbn.
  destruct (get_object h w (config_bucket h) (config_key h)) as [[content|e] w2]; cbn.
  - destruct (json_loads h content); cbn; rewrite in_app_iff; cbn; auto.
  - rewrite in_app_iff; cbn; auto.
Qed.

End CacheSlip.

(** * Examples and counterexamples on the sample host *)

(** C3, the claim as stated fails: a filter without ['value'] and a regex
    that does not compile make the matcher raise, and a rule without
    ['filename_filter'] matches. *)
Lemma misconfigured_filter_raises :
  matches_rule Py.ascii_lower sample_re_search "Inbox/data.csv" "data.csv"
    (filtered_rule (Some (simple_filter "starts_with" None)))
  = Raise (KeyError "value") /\
  matches_rule Py.ascii_lower sample_re_search "Inbox/data.csv" "data.csv"
    (filtered_rule (Some (simple_filter "regex" (Some "("))))
  = Raise (ReError "missing ), unterminated subpattern at position 0") /\
  matches_rule Py.ascii_lower sample_re_search "Inbox/data.csv" "data.csv" (filtered_rule None)
  = Ok true.
Proof. repeat split. Qed.

Lemma misconfigured_rule_behaviour_witness :
  matches_rule Py.ascii_lower sample_re_search "Inbox/data.csv" "data.csv"
    (filtered_rule (Some (simple_filter "starts_with" None)))
  = Raise (KeyError "value").
Proof.
  refine (proj1 (proj2 (proj1 (proj2
            (misconfigured_rule_behaviour (sample_host (Ok 5%Z) (Ok []) (Ok tt))
               "Inbox/data.csv" "data.csv"
               (filtered_rule (Some (simple_filter "starts_with" None)))))
            (conj eq_refl (conj eq_refl (conj eq_refl eq_refl)))))
          "starts_with" None None None [] _ eq_refl).
  simpl. left. reflexivity.
Defined.

(** C9, the claim as stated fails: with a rule whose filter lacks
    ['value'] the handler raises on a batch of one object. *)
Lemma lambda_handler_raises_on_bad_rule :
  let host := sample_host (Ok 5%Z)
                (Ok [filtered_rule (Some (simple_filter "starts_with" None))])
                (Ok tt) in
  fst (lambda_handler host [MkEvent "src" "Inbox/data.csv"] (fresh_state host tt))
  = Raise (KeyError "value").
Proof. reflexivity. Qed.

Lemma batch_summary_witness :
  let host := sample_host (Ok 5%Z) (Ok [inbox_rule (Some "inbox")])
                (Raise (ClientError "AccessDenied")) in
  fst (lambda_handler host [MkEvent "src" "Inbox/data.csv"] (fresh_state host tt))
  = Ok (MkResponse 207 0 1 []
          [Failure "s3://src/Inbox/data.csv"
             "Failed to process Inbox/data.csv: AccessDenied"]).
Proof.
  intros host.
  rewrite (proj1 (proj2 (proj2 (batch_summary host [MkEvent "src" "Inbox/data.csv"]
                                  (fresh_state host tt))))).
  - reflexivity.
  - intros record [<-|[]]. right. eexists. reflexivity.
Defined.

Lemma load_failure_skips_batch_witness :
  let host := sample_host (Raise (ClientError "unreachable"))
                (Ok [inbox_rule (Some "inbox")]) (Ok tt) in
  fst (lambda_handler host [MkEvent "src" "Inbox/data.csv"] (fresh_state host tt))
  = Ok (MkResponse 200 0 0 [] []).
Proof.
  intros host.
  destruct (load_failure_skips_batch host (fresh_state host tt)
              [MkEvent "src" "Inbox/data.csv"] I)
    as (st1 & _ & _ & _ & _ & Hrun & _).
  rewrite Hrun. reflexivity.
Defined.

Lemma config_document_record_is_skipped_witness :
  let host := sample_host (Ok 5%Z) (Ok [inbox_rule (Some "inbox")]) (Ok tt) in
  lambda_handler host
    ([MkEvent "src" "Inbox/data.csv"] ++
     MkEvent "src" "config/routing-rules.json" :: [])%list (fresh_state host tt)
  = lambda_handler host ([MkEvent "src" "Inbox/data.csv"] ++ [])%list
      (fresh_state host tt).
Proof.
  intros host.
  exact (config_document_record_is_skipped host [MkEvent "src" "Inbox/data.csv"] []
           (MkEvent "src" "config/routing-rules.json") (fresh_state host tt) eq_refl).
Defined.

(** The end-to-end scenario of the specification: one object, one rule
    without timestamp, copied to [dst/Out/data.csv], nothing deleted. *)
Example end_to_end_scenario :
  let rule := MkRule (Some "inbox") (Some 1%Z) (Some true) (Some "prefix")
                (Some "Inbox/") (Some [".csv"]) None (Some "dst") (Some "Out/")
                (Some false) None None in
  let host := sample_host (Ok 5%Z) (Ok [rule]) (Ok tt) in
  let run := lambda_handler host [MkEvent "src" "Inbox/data.csv"] (fresh_state host tt) in
  fst run = Ok (MkResponse 200 1 0
                  [Success "s3://src/Inbox/data.csv" "s3://dst/Out/data.csv"
                     "inbox" (Some 1%Z)] []) /\
  map is_store_write (st_calls (snd run)) = [false; false; true] /\
  existsb (fun c => match c with DeleteObject _ _ => true | _ => false end)
          (st_calls (snd run)) = false.
Proof. repeat split. Qed.

(** Folder matching is by equality: a key one folder below the pattern
    does not match. *)
Example subfolder_does_not_match :
  matches_rule Py.ascii_lower sample_re_search "Inbox/Sub/file.csv" "file.csv"
    (inbox_rule (Some "inbox")) = Ok false.
Proof. reflexivity. Qed.

(** * Further facts about the string primitives *)

Section MoreStringFacts.

Lemma lower_ascii_dot (c : ascii) :
  Ascii.eqb (Py.lower_ascii c) "." = Ascii.eqb c ".".
Proof. destruct c as [[] [] [] [] [] [] [] []]; reflexivity. Qed.

(** The ASCII fold neither makes nor removes a leading dot. *)
Lemma ascii_lower_leading_dot (s : string) :
  Py.startswith (Py.ascii_lower s) "." = Py.startswith s ".".
Proof.
  unfold Py.startswith. destruct s as [|c s]; [reflexivity|].
  cbn [Py.ascii_lower]. rewrite !prefix_char, !(Ascii.eqb_sym "."%char).
  apply lower_ascii_dot.
Qed.

Lemma prefix_iff (p s : string) :
  String.prefix p s = true <-> exists rest, s = p ++ rest.
Proof.
  revert s. induction p as [|c p IH]; intros s.
  - rewrite prefix_empty. split; [intros _; exists s; reflexivity|reflexivity].
  - destruct s as [|d s]; simpl.
    + split; [discriminate|intros [rest H]; discriminate].
    + destruct (ascii_dec c d) as [->|Hne].
      * rewrite IH. split; intros [rest H]; exists rest; congruence.
      * split; [discriminate|intros [rest H]; congruence].
Qed.

Lemma contains_iff (sub s : string) :
  Py.contains sub s = true <-> exists a b, s = a ++ sub ++ b.
Proof.
  induction s as [|d s IH].
  - cbn [Py.contains]. rewrite orb_false_r, prefix_iff. split.
    + intros [rest H]. exists "", rest. exact H.
    + intros (a & b & H). destruct a; [exists b; exact H|discriminate].
  - change (Py.contains sub (String d s))
      with (String.prefix sub (String d s) || Py.contains sub s).
    rewrite orb_true_iff, prefix_iff, IH. split.
    + intros [[rest H]|(a & b & H)].
      * exists "", rest. exact H.
      * exists (String d a), b. simpl. congruence.
    + intros (a & b & H). destruct a as [|c a].
      * left. exists b. exact H.
      * right. exists a, b. simpl in H. congruence.
Qed.

Lemma endswith_iff (s p : string) :
  Py.endswith s p = true <-> exists a, s = a ++ p.
Proof.
  induction s as [|d s IH].
  - cbn [Py.endswith]. rewrite orb_false_r, String.eqb_eq. split.
    + intros <-. exists "". reflexivity.
    + intros [a H]. destruct a; [exact H|discriminate].
  - change (Py.endswith (String d s) p)
      with (String.eqb (String d s) p || Py.endswith s p).
    rewrite orb_true_iff, String.eqb_eq, IH. split.
    + intros [<-|[a ->]]; [exists ""; reflexivity|exists (String d a); reflexivity].
    + intros [a H]. destruct a as [|c a].
      * left. exact H.
      * right. exists a. simpl in H. congruence.
Qed.

End MoreStringFacts.

(** * Further properties of the matching engine *)

Section MatchingProperties.

(** The folder that [matches_rule] compares and the filename that
    [find_best_destination] extracts put the key back together, and the
    filename holds no separator. *)
Theorem folder_and_filename_recombine (source_key : string) :
  source_folder_of source_key ++ Py.last_part (Py.split "/" source_key) = source_key /\
  Py.contains "/" (Py.last_part (Py.split "/" source_key)) = false.
Proof.
  destruct (Py.contains "/" source_key) eqn:Hc.
  - destruct (last_occurrence "/" source_key Hc) as (a & b & -> & Hb).
    change (a ++ String "/" b) with (a ++ "/" ++ b).
    rewrite (source_folder_at_last a b Hb).
    change (a ++ "/" ++ b) with (a ++ String "/" b).
    destruct (split_at_last "/" a b Hb) as [-> _].
    split; [apply append_assoc|exact Hb].
  - unfold source_folder_of. rewrite Hc, (split_no_sep "/" source_key Hc).
    split; [reflexivity|exact Hc].
Qed.

Lemma source_folder_shape (source_key : string) :
  source_folder_of source_key = "" \/
  Py.endswith (source_folder_of source_key) "/" = true.
Proof.
  destruct (source_folder_is_folder source_key) as [[_ H]|(a & b & _ & _ & H)].
  - left. exact H.
  - right. rewrite H. apply endswith_app.
Qed.

Variable lower : string -> string.
Variable re_search : string -> string -> bool -> result bool.

(** A source pattern that is not empty and does not end with the
    separator matches no key: the matcher answers false, raising nothing. *)
Theorem pattern_without_final_separator_never_matches
  (source_key filename : string) (rule : RoutingRule) :
  dict_get (rule_source_pattern rule) "" <> "" ->
  Py.endswith (dict_get (rule_source_pattern rule) "") "/" = false ->
  matches_rule lower re_search source_key filename rule = Ok false.
Proof.
  intros Hne He. unfold matches_rule.
  destruct (negb (dict_get (rule_enabled rule) true)); [reflexivity|].
  destruct (negb (check_file_type lower filename (dict_get (rule_file_types rule) [])));
    [reflexivity|].
  destruct (String.eqb_spec (source_folder_of source_key)
              (dict_get (rule_source_pattern rule) "")) as [Heq|Hneq].
  - exfalso. destruct (source_folder_shape source_key) as [H|H]; congruence.
  - rewrite andb_false_r. reflexivity.
Qed.

(** A rule whose pattern type is not [prefix_with_filename_filter] reads
    no filter: the matcher returns a boolean on it, whatever else the rule
    holds or lacks. *)
Theorem matches_rule_without_filter_returns
  (source_key filename : string) (rule : RoutingRule) :
  dict_get (rule_pattern_type rule) "prefix" <> "prefix_with_filename_filter" ->
  exists b, matches_rule lower re_search source_key filename rule = Ok b.
Proof.
  intros Hp. unfold matches_rule. apply String.eqb_neq in Hp. rewrite Hp.
  destruct (negb _); [eauto|]. destruct (negb _); [eauto|].
  destruct (_ && _); eauto.
Qed.

Lemma matches_rule_disabled (source_key filename : string) (rule : RoutingRule) :
  dict_get (rule_enabled rule) true = false ->
  matches_rule lower re_search source_key filename rule = Ok false.
Proof. intros H. unfold matches_rule. rewrite H. reflexivity. Qed.

(** Disabled rules are transparent: the resolver answers, or raises, as it
    does on the list without them, even when a disabled rule is one the
    matcher would raise on. *)
Theorem disabled_rules_are_transparent (source_key : string)
  (rules : list RoutingRule) :
  find_best_destination lower re_search source_key rules
  = find_best_destination lower re_search source_key
      (filter (fun rule => dict_get (rule_enabled rule) true) rules).
Proof.
  unfold find_best_destination.
  destruct (_ || _); [reflexivity|].
  induction rules as [|rule rules IH]; [reflexivity|].
  cbn [filter first_match].
  destruct (dict_get (rule_enabled rule) true) eqn:He.
  - cbn [first_match].
    destruct (matches_rule lower re_search source_key _ rule) as [[|]|e]; cbn [rbind];
      [reflexivity|exact IH|reflexivity].
  - rewrite (matches_rule_disabled _ _ _ He). cbn [rbind]. exact IH.
Qed.

(** What the resolver returns: the key is not hidden, the rule is in the
    list and has a name, it is enabled with a valid pattern type and the
    folder of the key as source pattern, and the matcher returned false on
    every rule before it. *)
Theorem find_best_destination_sound (source_key : string)
  (rules : list RoutingRule) (rule : RoutingRule) :
  find_best_destination lower re_search source_key rules = Ok (Some rule) ->
  is_hidden_key source_key = false /\
  rule_name rule <> None /\
  dict_get (rule_enabled rule) true = true /\
  In (dict_get (rule_pattern_type rule) "prefix") valid_pattern_types /\
  dict_get (rule_source_pattern rule) "" = source_folder_of source_key /\
  exists pre post,
    rules = (pre ++ rule :: post)%list /\
    forall q, In q pre ->
      matches_rule lower re_search source_key (Py.last_part (Py.split "/" source_key)) q
      = Ok false.
Proof.
  unfold find_best_destination, is_hidden_key.
  destruct (_ || _); [discriminate|]. intros H.
  destruct (first_match_sound lower re_search _ _ _ _ H) as (pre & post & -> & Hpre & Hm & Hn).
  apply matches_rule_true_iff in Hm. destruct Hm as (He & _ & Hp & Hf & _).
  repeat split; try assumption.
  - unfold valid_pattern_types. simpl. destruct Hp as [->| ->]; auto.
  - symmetry. exact Hf.
  - exists pre, post. split; [reflexivity|exact Hpre].
Qed.

Lemma strongly_sorted_after {A : Type} (R : A -> A -> Prop)
  (pre : list A) (x : A) (post : list A) :
  StronglySorted R (pre ++ x :: post)%list -> Forall (R x) post.
Proof.
  induction pre as [|y pre IH]; cbn [app]; intros H; inversion H; subst; auto.
Qed.

(** On the rules of a loaded document, which the loader sorts, the rule
    the resolver returns has the least priority among the rules that
    match the key. *)
Theorem resolved_rule_has_least_priority (source_key : string)
  (document : list RoutingRule) (rule other : RoutingRule) :
  find_best_destination lower re_search source_key (sort_by_key priority_key document)
  = Ok (Some rule) ->
  In other document ->
  matches_rule lower re_search source_key (Py.last_part (Py.split "/" source_key)) other
  = Ok true ->
  (priority_key rule <= priority_key other)%Z.
Proof.
  intros Hf Hin Hm.
  destruct (find_best_destination_sound _ _ _ Hf)
    as (_ & _ & _ & _ & _ & pre & post & Hs & Hpre).
  assert (Hin' : In other (sort_by_key priority_key document)).
  { eapply Permutation_in; [apply sort_by_key_perm|exact Hin]. }
  pose proof (sort_by_key_sorted priority_key document) as Hsorted.
  rewrite Hs in Hin', Hsorted.
  apply in_app_or in Hin'. destruct Hin' as [Hp|[<-|Hp]].
  - rewrite (Hpre other Hp) in Hm. discriminate.
  - lia.
  - apply strongly_sorted_after in Hsorted.
    rewrite Forall_forall in Hsorted. exact (Hsorted other Hp).
Qed.

End MatchingProperties.

(** * Further properties of the filename filter *)

Section FilterProperties.

Variable lower : string -> string.
Variable re_search : string -> string -> bool -> result bool.

(** A filter whose type is none of the six the evaluator knows (a
    misspelt one, ['none'], or no type at all) accepts every filename and
    reads no other key. *)
Theorem unknown_filter_type_accepts (filename : string)
  (ty : option string) (cs : option bool) (val : option string)
  (pats : option (list FilenameFilter)) (logic : option string)
  (others : list string) :
  ~ In (dict_get ty "none") known_filter_types ->
  check_filename_filter lower re_search filename (MkFilter ty cs val pats logic others)
  = Ok true.
Proof.
  intros Hty. cbn -[String.eqb].
  destruct (filter_is_empty (MkFilter ty cs val pats logic others)); [reflexivity|].
  unfold known_filter_types in Hty. cbn [In] in Hty.
  repeat match goal with
         | |- context [?a =? ?b] =>
             destruct (String.eqb_spec a b) as [Heq|_];
             [exfalso; apply Hty; rewrite Heq; tauto|]
         end.
  reflexivity.
Qed.

(** A [multiple_patterns] filter with no nested filter: with
    [match_logic] ['any'], or without one, it rejects every filename; with
    any other [match_logic] it accepts every filename. *)
Theorem multiple_patterns_without_patterns (filename : string)
  (cs : option bool) (val : option string) (pats : option (list FilenameFilter))
  (logic : option string) (others : list string) :
  dict_get pats [] = [] ->
  check_filename_filter lower re_search filename
    (MkFilter (Some "multiple_patterns") cs val pats logic others)
  = Ok (negb (dict_get logic "any" =? "any")).
Proof.
  intros Hp. rewrite check_filename_filter_multiple, Hp. cbn [mapM rbind].
  destruct (dict_get logic "any" =? "any"); reflexivity.
Qed.

Lemma mapM_raises_at {A B : Type} (f : A -> result B)
  (pre : list A) (a : A) (post : list A) (e : exn) :
  (forall x, In x pre -> exists b, f x = Ok b) -> f a = Raise e ->
  mapM f (pre ++ a :: post)%list = Raise e.
Proof.
  induction pre as [|x pre IH]; intros Hpre Ha; cbn [mapM app].
  - rewrite Ha. reflexivity.
  - destruct (Hpre x (or_introl eq_refl)) as [b ->]. cbn [rbind].
    rewrite IH; [reflexivity| |exact Ha]. intros y Hy. apply Hpre. right. exact Hy.
Qed.

(** [any] and [all] are taken over the complete list of answers: a nested
    filter that raises makes the whole filter raise, whatever
    [match_logic] is and whatever the nested filters before it answered. *)
Theorem multiple_patterns_evaluates_every_pattern (filename : string)
  (cs : option bool) (val : option string)
  (pre : list FilenameFilter) (bad : FilenameFilter) (post : list FilenameFilter)
  (logic : option string) (others : list string) (e : exn) :
  (forall p, In p pre -> exists b, check_filename_filter lower re_search filename p = Ok b) ->
  check_filename_filter lower re_search filename bad = Raise e ->
  check_filename_filter lower re_search filename
    (MkFilter (Some "multiple_patterns") cs val (Some (pre ++ bad :: post)%list)
              logic others)
  = Raise e.
Proof.
  intros Hpre Hbad. rewrite check_filename_filter_multiple. cbn [dict_get].
  rewrite (mapM_raises_at _ pre bad post e Hpre Hbad). reflexivity.
Qed.

(** With [case_sensitive] true the four string filters are the plain
    tests on the filename: it begins with the value, does not begin with
    it, ends with it, holds it. *)
Theorem case_sensitive_string_filters (filename value : string)
  (pats : option (list FilenameFilter)) (logic : option string)
  (others : list string) :
  let filter ty := MkFilter (Some ty) (Some true) (Some value) pats logic others in
  (check_filename_filter lower re_search filename (filter "starts_with") = Ok true <->
   exists rest, filename = value ++ rest) /\
  (check_filename_filter lower re_search filename (filter "not_starts_with") = Ok true <->
   ~ exists rest, filename = value ++ rest) /\
  (check_filename_filter lower re_search filename (filter "ends_with") = Ok true <->
   exists before, filename = before ++ value) /\
  (check_filename_filter lower re_search filename (filter "contains") = Ok true <->
   exists before rest, filename = before ++ value ++ rest).
Proof.
  intros filter. unfold filter.
  cbn -[Py.startswith Py.endswith Py.contains]. unfold Py.startswith.
  rewrite <- prefix_iff, <- endswith_iff, <- contains_iff.
  split; [|split; [|split]].
  - split; intros H; congruence.
  - destruct (String.prefix value filename); cbn [negb]; split; intros H;
      congruence || (exfalso; apply H; reflexivity) || discriminate.
  - split; intros H; congruence.
  - split; intros H; congruence.
Qed.

End FilterProperties.

(** * Further properties of the file-type gate *)

Section GateProperties.

Variable lower : string -> string.

(** The gate looks at the extension only: with a non-empty list, the
    answer for a filename cut at its last dot is the membership of that
    extension, lowered, in the lowered list. *)
Lemma check_file_type_of_extension (stem suffix : string) (allowed_types : list string) :
  Py.contains "." suffix = false -> allowed_types <> [] ->
  check_file_type lower (stem ++ "." ++ suffix) allowed_types
  = existsb (String.eqb (lower ("." ++ suffix))) (map lower allowed_types).
Proof.
  intros Hs Hne. destruct allowed_types as [|t l]; [congruence|].
  unfold check_file_type.
  change (stem ++ "." ++ suffix) with (stem ++ String "." suffix).
  rewrite contains_char_app.
  destruct (split_at_last "." stem suffix Hs) as [-> _]. reflexivity.
Qed.

Lemma check_file_type_no_dot (filename : string) (allowed_types : list string) :
  Py.contains "." filename = false -> allowed_types <> [] ->
  check_file_type lower filename allowed_types
  = existsb (String.eqb (lower "")) (map lower allowed_types).
Proof.
  intros Hs Hne. destruct allowed_types as [|t l]; [congruence|].
  unfold check_file_type. rewrite Hs. reflexivity.
Qed.

(** An allowed type written without its leading dot (['csv'] for
    ['.csv']) matches no filename: a list of such entries rejects
    everything.  The two facts about [str.lower] that this rests on: it
    gives the empty string on the empty string only, and it neither makes
    nor removes a leading dot. *)
Theorem types_without_leading_dot_reject_all (filename : string)
  (allowed_types : list string) :
  (forall s, lower s = "" <-> s = "") ->
  (forall s, Py.startswith (lower s) "." = Py.startswith s ".") ->
  allowed_types <> [] ->
  (forall t, In t allowed_types -> t <> "" /\ Py.startswith t "." = false) ->
  check_file_type lower filename allowed_types = false.
Proof.
  intros Hempty Hdot Hne Hall.
  destruct (check_file_type lower filename allowed_types) eqn:Hc; [|reflexivity].
  exfalso. apply (check_file_type_listed lower _ _ Hne) in Hc.
  destruct Hc as (t & Ht & Hl). destruct (Hall t Ht) as [Hnonempty Hnodot].
  destruct (Py.contains "." filename).
  - assert (Hlead : Py.startswith (lower t) "." = true).
    { rewrite Hl, Hdot. unfold Py.startswith. apply prefix_char. }
    rewrite Hdot in Hlead. congruence.
  - rewrite (proj2 (Hempty "") eq_refl) in Hl.
    apply (proj1 (Hempty t)) in Hl. congruence.
Qed.

(** The timestamped name of a file with an extension keeps that
    extension, so it passes the gate exactly when the source name does;
    so does the name of a file without a dot, for a timestamp without
    dot. *)
Theorem timestamped_filename_keeps_file_type (timestamp : string)
  (allowed_types : list string) :
  (forall stem ext,
     Py.contains "." ext = false -> ext <> "" ->
     check_file_type lower (timestamped_filename (stem ++ "." ++ ext) timestamp)
       allowed_types
     = check_file_type lower (stem ++ "." ++ ext) allowed_types) /\
  (forall filename,
     Py.contains "." filename = false -> Py.contains "." timestamp = false ->
     check_file_type lower (timestamped_filename filename timestamp) allowed_types
     = check_file_type lower filename allowed_types).
Proof.
  destruct allowed_types as [|t l]; [split; reflexivity|].
  assert (Hne : t :: l <> []) by discriminate. split.
  - intros stem ext Hd He.
    rewrite (timestamped_filename_extension stem ext timestamp Hd He).
    replace (stem ++ "_" ++ timestamp ++ "." ++ ext)
      with ((stem ++ "_" ++ timestamp) ++ "." ++ ext)
      by (rewrite !append_assoc; reflexivity).
    rewrite !(check_file_type_of_extension _ ext _ Hd Hne). reflexivity.
  - intros filename Hf Ht.
    rewrite (timestamped_filename_no_dot filename timestamp Hf).
    rewrite !check_file_type_no_dot; try assumption; [reflexivity|].
    destruct (Py.contains "." (filename ++ "_" ++ timestamp)) eqn:E; [|reflexivity].
    apply contains_iff in E. destruct E as (a & b & E).
    exfalso.
    assert (Hsplit : forall x y, Py.contains "." x = false ->
              Py.contains "." y = false -> Py.contains "." (x ++ y) = false).
    { intros x y Hx Hy. induction x as [|c x IH]; [exact Hy|].
      simpl append. rewrite contains_char_cons in *.
      apply orb_false_iff in Hx. destruct Hx as [Hc Hx].
      rewrite Hc, (IH Hx). reflexivity. }
    assert (Hall : Py.contains "." (filename ++ "_" ++ timestamp) = false).
    { apply Hsplit; [exact Hf|]. apply (Hsplit "_" timestamp eq_refl Ht). }
    rewrite E in Hall.
    change (a ++ "." ++ b) with (a ++ String "." b) in Hall.
    rewrite contains_char_app in Hall. discriminate.
Qed.

End GateProperties.

(** * Further properties of the object processor *)

Section ProcessorProperties.

Variable h : Host.

Ltac run_step :=
  match goal with
  | |- context [clock_now h ?w] =>
      destruct (clock_now h w) as [? ?] eqn:?
  | |- context [copy_object h ?w ?r] =>
      destruct (copy_object h w r) as [[[]|?] ?] eqn:?
  | |- context [delete_object h ?w ?b ?k] =>
      destruct (delete_object h w b k) as [[[]|?] ?] eqn:?
  | |- context [match ?x with _ => _ end] =>
      lazymatch x with
      | context [match _ with _ => _ end] => fail
      | _ => destruct x eqn:?
      end
  end.

Ltac run_process_file :=
  unfold process_file, process_file_body, failure_of, try_except, bind, lift, ret, subscript, datetime_now,
    s3_copy_object, s3_delete_object, log_call;
  repeat (cbn [fst snd st_world cached_config config_last_modified st_calls] in *;
          run_step);
  cbn [fst snd st_world cached_config config_last_modified st_calls] in *.

(** The store calls of one [process_file]: none, or one copy of the
    source object, or that copy followed by one delete of the source
    object; the delete is issued only when [delete_source] is true and
    the copy was answered without error; the cache is left alone. *)
Theorem process_file_store_calls (source_bucket source_key : string)
  (destination_info : RoutingRule) (st : State h) :
  let st' := snd (process_file h source_bucket source_key destination_info st) in
  cached_config st' = cached_config st /\
  config_last_modified st' = config_last_modified st /\
  (st_calls st' = st_calls st \/
   exists request,
     copy_source_bucket request = source_bucket /\
     copy_source_key request = source_key /\
     (st_calls st' = (st_calls st ++ [CopyObject request])%list \/
      (st_calls st'
       = (st_calls st ++ [CopyObject request;
                          DeleteObject source_bucket source_key])%list /\
       dict_get (rule_delete_source destination_info) false = true /\
       exists w w', copy_object h w request = (Ok tt, w')))).
Proof.
  run_process_file;
    (split; [reflexivity|]); (split; [reflexivity|]);
    rewrite <- ?app_assoc; cbn [app];
    try (left; reflexivity);
    right;
    match goal with H : copy_object h _ ?r = _ |- _ => exists r end;
    (split; [reflexivity|]); (split; [reflexivity|]);
    try (left; reflexivity);
    right; (split; [reflexivity|]); (split; [reflexivity|]);
    eauto.
Qed.

(** A rule that lacks ['destination_prefix'], ['name'] or
    ['destination_bucket'] gives a failure that quotes the first of these
    three keys, in this order, that the rule lacks, and the store is not
    called at all. *)
Theorem process_file_missing_key (source_bucket source_key : string)
  (destination_info : RoutingRule) (st : State h) :
  rule_destination_prefix destination_info = None \/
  rule_name destination_info = None \/
  rule_destination_bucket destination_info = None ->
  let key :=
    match rule_destination_prefix destination_info, rule_name destination_info with
    | None, _ => "destination_prefix"
    | Some _, None => "name"
    | Some _, Some _ => "destination_bucket"
    end in
  exists st',
    process_file h source_bucket source_key destination_info st
    = (Ok (Failure (s3_uri source_bucket source_key)
             ("Failed to process " ++ source_key ++ ": '" ++ key ++ "'")), st') /\
    st_calls st' = st_calls st.
Proof.
  intros Hmiss. cbv zeta. run_process_file;
    try (destruct Hmiss as [Hm|[Hm|Hm]]; congruence);
    repeat match goal with
           | H : ?x = _ |- context [match ?x with _ => _ end] => rewrite H
           end;
    eexists; split; reflexivity.
Qed.

(** A success reports what was done: its destination is the bucket and
    key of the copy that was issued, its rule and priority are those of
    the rule, and with [delete_source] the source object was deleted. *)
Theorem process_file_success_reports_the_copy (source_bucket source_key : string)
  (destination_info : RoutingRule) (st st' : State h)
  (source destination rule_used : string) (priority : option Z) :
  process_file h source_bucket source_key destination_info st
  = (Ok (Success source destination rule_used priority), st') ->
  source = s3_uri source_bucket source_key /\
  rule_name destination_info = Some rule_used /\
  priority = rule_priority destination_info /\
  (exists request,
     In (CopyObject request) (st_calls st') /\
     destination = s3_uri (copy_bucket request) (copy_key request) /\
     rule_destination_bucket destination_info = Some (copy_bucket request) /\
     exists prefix filename,
       rule_destination_prefix destination_info = Some prefix /\
       copy_key request = prefix ++ filename) /\
  (dict_get (rule_delete_source destination_info) false = true ->
   In (DeleteObject source_bucket source_key) (st_calls st')).
Proof.
  run_process_file; intros Hrun; inversion Hrun; subst; clear Hrun;
    (split; [reflexivity|]); (split; [reflexivity|]); (split; [reflexivity|]);
    (split;
     [match goal with H : copy_object h _ ?r = _ |- _ => exists r end;
      cbn; rewrite ?in_app_iff; cbn; repeat split; eauto
     |intros Hd; try discriminate; cbn; rewrite ?in_app_iff; cbn; auto]).
Qed.

(** A store that refuses the copy: the result is a failure with the
    message of the store, and the source is not deleted, whatever
    [delete_source] says. *)
Theorem process_file_copy_refused (source_bucket source_key : string)
  (destination_info : RoutingRule) (st : State h) (e : exn) :
  (forall w request, fst (copy_object h w request) = Raise e) ->
  rule_destination_prefix destination_info <> None ->
  rule_name destination_info <> None ->
  rule_destination_bucket destination_info <> None ->
  exists request st',
    process_file h source_bucket source_key destination_info st
    = (Ok (Failure (s3_uri source_bucket source_key)
             ("Failed to process " ++ source_key ++ ": " ++ exn_str e)), st') /\
    st_calls st' = (st_calls st ++ [CopyObject request])%list.
Proof.
  intros Hcopy Hp Hn Hb. run_process_file; try congruence;
    match goal with
    | E : copy_object h ?w ?r = _ |- _ =>
        pose proof (Hcopy w r) as X; rewrite E in X; cbn in X;
        try discriminate; injection X as ->
    end;
    do 2 eexists; split; reflexivity.
Qed.

(** A delete that fails after a copy that went through: the object is
    reported as failed although its copy exists at the destination. *)
Theorem process_file_delete_refused (source_bucket source_key : string)
  (destination_info : RoutingRule) (st : State h) (e : exn) :
  (forall w request, fst (copy_object h w request) = Ok tt) ->
  (forall w bucket key, fst (delete_object h w bucket key) = Raise e) ->
  dict_get (rule_delete_source destination_info) false = true ->
  rule_destination_prefix destination_info <> None ->
  rule_name destination_info <> None ->
  rule_destination_bucket destination_info <> None ->
  exists request st',
    process_file h source_bucket source_key destination_info st
    = (Ok (Failure (s3_uri source_bucket source_key)
             ("Failed to process " ++ source_key ++ ": " ++ exn_str e)), st') /\
    st_calls st'
    = (st_calls st ++ [CopyObject request;
                       DeleteObject source_bucket source_key])%list.
Proof.
  intros Hcopy Hdel Hd Hp Hn Hb. run_process_file; try congruence;
    try match goal with
        | E : copy_object h ?w ?r = _ |- _ =>
            pose proof (Hcopy w r) as X; rewrite E in X; cbn in X; discriminate
        end;
    match goal with
    | E : delete_object h ?w ?b ?k = _ |- _ =>
        pose proof (Hdel w b k) as X; rewrite E in X; cbn in X;
        try discriminate; injection X as ->
    end;
    do 2 eexists; (split; [reflexivity|]);
    rewrite <- app_assoc; reflexivity.
Qed.

(** The metadata of the copy: the six provenance entries in their order,
    followed by ['matched-keyword'] exactly when the rule carries one;
    they name the source object and the rule. *)
Theorem process_file_copy_metadata (source_bucket source_key prefix name bucket : string)
  (destination_info : RoutingRule) (st : State h) :
  rule_destination_prefix destination_info = Some prefix ->
  rule_name destination_info = Some name ->
  rule_destination_bucket destination_info = Some bucket ->
  exists request,
    In (CopyObject request)
       (st_calls (snd (process_file h source_bucket source_key destination_info st))) /\
    map fst (copy_metadata request)
    = (["source-bucket"; "source-key"; "processed-by"; "processed-at";
        "routing-rule"; "rule-priority"] ++
       match rule_matched_keyword destination_info with
       | Some _ => ["matched-keyword"]
       | None => []
       end)%list /\
    In ("source-bucket", source_bucket) (copy_metadata request) /\
    In ("source-key", source_key) (copy_metadata request) /\
    In ("routing-rule", name) (copy_metadata request) /\
    In ("rule-priority",
        match rule_priority destination_info with
        | Some p => Py.str_of_int p
        | None => "N/A"
        end) (copy_metadata request) /\
    (forall keyword, rule_matched_keyword destination_info = Some keyword ->
                     In ("matched-keyword", keyword) (copy_metadata request)).
Proof.
  intros Hp Hn Hb. run_process_file; try congruence;
    match goal with H : copy_object h _ ?r = _ |- _ => exists r end;
    rewrite ?in_app_iff; cbn;
    repeat match goal with
           | H : Some _ = Some _ |- _ => injection H as <-
           end;
    repeat split; auto 10;
    intros keyword Hk; try discriminate; injection Hk as <-; auto 10.
Qed.

End ProcessorProperties.

(** * Further properties of the loader and of the batch handler *)

Section TrafficProperties.

Variable h : Host.

Lemma count_calls_app (p : s3_call -> bool) (a b : list s3_call) :
  count_calls p (a ++ b)%list = (count_calls p a + count_calls p b)%nat.
Proof. unfold count_calls. rewrite filter_app, length_app. reflexivity. Qed.

(** The loader asks the store for the head of the document and at most
    once for the document itself, in that order, and nothing else. *)
Lemma load_routing_config_reads (st : State h) :
  let head := HeadObject (config_bucket h) (config_key h) in
  let get := GetObject (config_bucket h) (config_key h) in
  st_calls (snd (load_routing_config h st)) = (st_calls st ++ [head])%list \/
  st_calls (snd (load_routing_config h st)) = (st_calls st ++ [head; get])%list.
Proof.
  unfold load_routing_config, try_except, bind, s3_head_object, s3_get_object,
    log_call, read_globals, write_globals, lift, ret.
  destruct (head_object h (st_world st) (config_bucket h) (config_key h))
    as [[last_modified|e] w1]; cbn; [|left; reflexivity].
  destruct (cache_is_current (cached_config st) (config_last_modified st) last_modified);
    cbn; [left; reflexivity|].
  destruct (get_object h w1 (config_bucket h) (config_key h)) as [[content|e] w2]; cbn.
  - destruct (json_loads h content); cbn; right; rewrite <- app_assoc; reflexivity.
  - right. rewrite <- app_assoc. reflexivity.
Qed.

(** The loop of the handler, however it ends: it leaves the cache alone,
    and adds to the log only copies and deletes, at most one copy per
    record and never more deletes than copies. *)
Lemma handle_records_writes (routing_rules : list RoutingRule)
  (records : list ObjectEvent) :
  forall processed_files errors st,
  let st' := snd (handle_records h routing_rules records processed_files errors st) in
  cached_config st' = cached_config st /\
  config_last_modified st' = config_last_modified st /\
  exists writes,
    st_calls st' = (st_calls st ++ writes)%list /\
    forallb is_store_write writes = true /\
    (count_calls is_copy writes <= List.length records)%nat /\
    (count_calls is_delete writes <= count_calls is_copy writes)%nat.
Proof.
  induction records as [|r records IH]; intros processed_files errors st.
  - cbn. repeat split. exists []. rewrite app_nil_r. repeat split; cbn; lia.
  - assert (Hskip : forall p e,
      let st' := snd (handle_records h routing_rules records p e st) in
      cached_config st' = cached_config st /\
      config_last_modified st' = config_last_modified st /\
      exists writes,
        st_calls st' = (st_calls st ++ writes)%list /\
        forallb is_store_write writes = true /\
        (count_calls is_copy writes <= S (List.length records))%nat /\
        (count_calls is_delete writes <= count_calls is_copy writes)%nat).
    { intros p e. destruct (IH p e st) as (Hc & Hm & writes & Hw & Hall & Hn & Hd).
      repeat split; try assumption. exists writes. repeat split; try assumption. lia. }
    cbn [handle_records List.length].
    destruct (unquote_plus h (ev_key r) =? config_key h); [apply Hskip|].
    unfold bind, lift.
    destruct (find_best_destination _ _ _ routing_rules) as [[rule|]|e];
      [|apply Hskip|].
    + destruct (process_file_store_calls h (ev_bucket r) (unquote_plus h (ev_key r)) rule st)
        as (Hc1 & Hm1 & Hcalls).
      destruct (process_file_returns h (ev_bucket r) (unquote_plus h (ev_key r)) rule st)
        as (result & st1 & Hrun & _).
      rewrite Hrun in *. cbn [snd] in *.
      assert (Hone : exists ws,
                st_calls st1 = (st_calls st ++ ws)%list /\
                forallb is_store_write ws = true /\
                (count_calls is_copy ws <= 1)%nat /\
                (count_calls is_delete ws <= count_calls is_copy ws)%nat).
      { destruct Hcalls as [H0|(request & _ & _ & [H1|(H2 & _)])].
        - exists []. rewrite app_nil_r. repeat split; cbn; auto.
        - exists [CopyObject request]. repeat split; cbn; auto.
        - exists [CopyObject request;
                  DeleteObject (ev_bucket r) (unquote_plus h (ev_key r))].
          repeat split; cbn; auto. }
      destruct Hone as (ws & Hws & Hall1 & Hn1 & Hd1).
      assert (Hrest : forall p e,
        let st' := snd (handle_records h routing_rules records p e st1) in
        cached_config st' = cached_config st /\
        config_last_modified st' = config_last_modified st /\
        exists writes,
          st_calls st' = (st_calls st ++ writes)%list /\
          forallb is_store_write writes = true /\
          (count_calls is_copy writes <= S (List.length records))%nat /\
          (count_calls is_delete writes <= count_calls is_copy writes)%nat).
      { intros p e. destruct (IH p e st1) as (Hc & Hm & writes & Hw & Hall & Hn & Hd).
        split; [congruence|]. split; [congruence|].
        exists (ws ++ writes)%list. rewrite Hw, Hws, <- app_assoc.
        rewrite forallb_app, Hall1, Hall, !count_calls_app.
        repeat split; lia. }
      destruct (result_success result); apply Hrest.
    + cbn. repeat split. exists []. rewrite app_nil_r. repeat split; cbn; lia.
Qed.

(** The store traffic of one invocation, however it ends: one head
    request, at most one get request, then only copies and deletes, at
    most one copy per record of the batch and never more deletes than
    copies; and the cache it leaves is the one the loader left. *)
Theorem lambda_handler_store_traffic (event : list ObjectEvent) (st : State h) :
  let st' := snd (lambda_handler h event st) in
  let loaded := snd (load_routing_config h st) in
  cached_config st' = cached_config loaded /\
  config_last_modified st' = config_last_modified loaded /\
  exists reads writes,
    st_calls st' = (st_calls st ++ reads ++ writes)%list /\
    (reads = [HeadObject (config_bucket h) (config_key h)] \/
     reads = [HeadObject (config_bucket h) (config_key h);
              GetObject (config_bucket h) (config_key h)]) /\
    forallb is_store_write writes = true /\
    (count_calls is_copy writes <= List.length event)%nat /\
    (count_calls is_delete writes <= count_calls is_copy writes)%nat.
Proof.
  cbv zeta. pose proof (load_routing_config_reads st) as Hreads. cbv zeta in Hreads.
  unfold lambda_handler, bind.
  destruct (load_returns h st) as (rules & st1 & Hl). rewrite Hl in *. cbn [snd] in *.
  destruct (handle_records_writes rules event [] [] st1)
    as (Hc & Hm & writes & Hw & Hall & Hn & Hd).
  destruct (handle_records h rules event [] [] st1) as [[lists|e] st2];
    cbn [snd ret] in *;
    (split; [exact Hc|]); (split; [exact Hm|]);
    destruct Hreads as [Hr|Hr];
    eexists; exists writes; rewrite Hw, Hr, <- app_assoc; repeat split; auto.
Qed.

(** A batch that holds only hidden files, directory markers and the
    configuration document never reaches the matcher: the handler returns
    status 200 with two empty lists and no copy or delete, on any rules,
    misconfigured ones included. *)
Theorem hidden_batch_is_ignored (event : list ObjectEvent) (st : State h) :
  (forall record, In record event ->
     decoded_key h record = config_key h \/
     is_hidden_key (decoded_key h record) = true) ->
  lambda_handler h event st
  = (Ok (MkResponse 200 0 0 [] []), snd (load_routing_config h st)).
Proof.
  intros Hhid. unfold lambda_handler, bind.
  destruct (load_returns h st) as (rules & st1 & Hl). rewrite Hl. cbn [snd].
  assert (Hloop : handle_records h rules event [] [] st1 = (Ok ([], []), st1)).
  { generalize (@nil ProcessingResult) at 1 3 as p.
    generalize (@nil ProcessingResult) as e.
    induction event as [|r event IH]; intros e p; [reflexivity|].
    cbn [handle_records].
    assert (Hrest : forall record, In record event ->
              decoded_key h record = config_key h \/
              is_hidden_key (decoded_key h record) = true)
      by (intros x Hx; apply Hhid; right; exact Hx).
    destruct (String.eqb_spec (unquote_plus h (ev_key r)) (config_key h)) as [Hk|Hk];
      [apply IH; exact Hrest|].
    destruct (Hhid r (or_introl eq_refl)) as [Hc|Hh]; [contradiction|].
    unfold bind, lift. unfold decoded_key, is_hidden_key in Hh.
    rewrite (find_best_destination_hidden _ _ _ rules (proj1 (orb_true_iff _ _) Hh)).
    apply IH. exact Hrest. }
  rewrite Hloop. reflexivity.
Qed.

End TrafficProperties.

(** * Further properties of the configuration cache *)

Section CacheProperties.

Variable h : Host.

Lemma sort_by_key_not_nil {A : Type} (key : A -> Z) (l : list A) :
  l <> [] -> sort_by_key key l <> [].
Proof.
  intros Hne Hs. apply Hne. apply Permutation_nil.
  rewrite <- Hs. apply Permutation_sym, sort_by_key_perm.
Qed.

(** A fresh load (no current cache, the store and the decoder answer):
    the rules returned are those of the document, in ascending order of
    priority with 999 for a rule without one, rules of equal priority in
    the order of the document; they become the cache, stamped with the
    modification time just observed. *)
Theorem fresh_load_sorts_and_caches (st : State h) (last_modified : Z)
  (w1 w2 : world h) (content : string) (document : list RoutingRule) :
  head_object h (st_world st) (config_bucket h) (config_key h) = (Ok last_modified, w1) ->
  cache_is_current (cached_config st) (config_last_modified st) last_modified = false ->
  get_object h w1 (config_bucket h) (config_key h) = (Ok content, w2) ->
  json_loads h content = Ok document ->
  exists rules st1,
    load_routing_config h st = (Ok rules, st1) /\
    cached_config st1 = Some rules /\
    config_last_modified st1 = Some last_modified /\
    Permutation document rules /\
    StronglySorted (key_le priority_key) rules /\
    (forall k, filter (fun rule => (priority_key rule =? k)%Z) rules
               = filter (fun rule => (priority_key rule =? k)%Z) document) /\
    (forall rule, In rule document -> rule_priority rule = None ->
                  priority_key rule = 999%Z).
Proof.
  intros Hh Hc Hg Hj. do 2 eexists.
  split; [apply (load_fresh h st last_modified w1 w2 content document Hh Hc Hg Hj)|].
  cbn. repeat split.
  - apply sort_by_key_perm.
  - apply sort_by_key_sorted.
  - intros k. apply sort_by_key_stable.
  - intros rule _ Hp. unfold priority_key. rewrite Hp. reflexivity.
Qed.

(** Two loads in a row: after a fresh load of a document with at least
    one rule, a load that finds the document no newer returns the same
    rules from the cache, with a head request only. *)
Theorem second_load_uses_the_cache (st : State h) (first second : Z)
  (w1 w2 w3 : world h) (content : string) (document : list RoutingRule) :
  head_object h (st_world st) (config_bucket h) (config_key h) = (Ok first, w1) ->
  cache_is_current (cached_config st) (config_last_modified st) first = false ->
  get_object h w1 (config_bucket h) (config_key h) = (Ok content, w2) ->
  json_loads h content = Ok document ->
  document <> [] ->
  head_object h w2 (config_bucket h) (config_key h) = (Ok second, w3) ->
  (second <= first)%Z ->
  let st1 := snd (load_routing_config h st) in
  st_world st1 = w2 /\
  fst (load_routing_config h st1) = fst (load_routing_config h st) /\
  st_calls (snd (load_routing_config h st1))
  = (st_calls st1 ++ [HeadObject (config_bucket h) (config_key h)])%list /\
  cached_config (snd (load_routing_config h st1)) = cached_config st1.
Proof.
  intros Hh Hc Hg Hj Hne Hh2 Hle.
  rewrite (load_fresh h st first w1 w2 content document Hh Hc Hg Hj). cbn [snd fst].
  destruct (sort_by_key priority_key document) as [|rule rules] eqn:Hs.
  - exfalso. exact (sort_by_key_not_nil priority_key document Hne Hs).
  - match goal with
    | |- context [load_routing_config h ?s] =>
        rewrite (load_cache_hit h s second first w3 rule rules Hh2 eq_refl eq_refl Hle)
    end.
    cbn. repeat split.
Qed.

End CacheProperties.

(** * Smart routing *)

Section SmartRoutingProperties.

Variable lower : string -> string.

Lemma first_keyword_first (source_lower : string)
  (pre : list (string * string)) (keyword destination : string)
  (post : list (string * string)) :
  (forall k d, In (k, d) pre -> Py.contains (lower k) source_lower = false) ->
  Py.contains (lower keyword) source_lower = true ->
  first_keyword lower source_lower (pre ++ (keyword, destination) :: post)%list
  = Some (keyword, destination).
Proof.
  intros Hpre Hk. induction pre as [|[k d] pre IH]; cbn [first_keyword app].
  - rewrite Hk. reflexivity.
  - rewrite (Hpre k d (or_introl eq_refl)). apply IH.
    intros k' d' H. apply (Hpre k' d'). right. exact H.
Qed.

Lemma first_keyword_none (source_lower : string) (items : list (string * string)) :
  (forall k d, In (k, d) items -> Py.contains (lower k) source_lower = false) ->
  first_keyword lower source_lower items = None.
Proof.
  induction items as [|[k d] items IH]; intros H; cbn [first_keyword]; [reflexivity|].
  rewrite (H k d (or_introl eq_refl)). apply IH.
  intros k' d' H'. apply (H k' d'). right. exact H'.
Qed.

(** Smart routing picks the first keyword, in the order of the mapping,
    whose [str.lower] occurs in the [str.lower] of the key, and routes to
    its prefix; when none does it routes to the default destination under
    the keyword ['default']. *)
Theorem apply_smart_routing_first_keyword (source_key : string) (rule : SmartRule)
  (mapping : list (string * string)) (default_destination : string) :
  sr_smart_routing rule = Some (MkSmart (Some mapping) (Some default_destination)) ->
  (forall pre keyword destination post,
     mapping = (pre ++ (keyword, destination) :: post)%list ->
     (forall k d, In (k, d) pre ->
        Py.contains (lower k) (lower source_key) = false) ->
     Py.contains (lower keyword) (lower source_key) = true ->
     apply_smart_routing lower source_key rule
     = Ok (enhanced_rule rule destination keyword)) /\
  ((forall k d, In (k, d) mapping ->
      Py.contains (lower k) (lower source_key) = false) ->
   apply_smart_routing lower source_key rule
   = Ok (enhanced_rule rule default_destination "default")).
Proof.
  intros Hs. unfold apply_smart_routing. rewrite Hs. cbn [subscript rbind
    smart_keyword_mapping smart_default_destination]. split.
  - intros pre keyword destination post -> Hpre Hk.
    rewrite (first_keyword_first _ pre keyword destination post Hpre Hk). reflexivity.
  - intros Hnone. rewrite (first_keyword_none _ mapping Hnone). reflexivity.
Qed.

(** Smart routing changes two keys of the rule and no other: the result
    carries a matched keyword and a destination prefix, and agrees with
    the rule on every other key. *)
Theorem apply_smart_routing_changes_two_keys (source_key : string)
  (rule enhanced : SmartRule) :
  apply_smart_routing lower source_key rule = Ok enhanced ->
  rule_matched_keyword (sr_rule enhanced) <> None /\
  rule_destination_prefix (sr_rule enhanced) <> None /\
  sr_smart_routing enhanced = sr_smart_routing rule /\
  rule_name (sr_rule enhanced) = rule_name (sr_rule rule) /\
  rule_priority (sr_rule enhanced) = rule_priority (sr_rule rule) /\
  rule_enabled (sr_rule enhanced) = rule_enabled (sr_rule rule) /\
  rule_pattern_type (sr_rule enhanced) = rule_pattern_type (sr_rule rule) /\
  rule_source_pattern (sr_rule enhanced) = rule_source_pattern (sr_rule rule) /\
  rule_file_types (sr_rule enhanced) = rule_file_types (sr_rule rule) /\
  rule_filename_filter (sr_rule enhanced) = rule_filename_filter (sr_rule rule) /\
  rule_destination_bucket (sr_rule enhanced) = rule_destination_bucket (sr_rule rule) /\
  rule_add_timestamp (sr_rule enhanced) = rule_add_timestamp (sr_rule rule) /\
  rule_delete_source (sr_rule enhanced) = rule_delete_source (sr_rule rule).
Proof.
  unfold apply_smart_routing.
  destruct (sr_smart_routing rule) as [[[mapping|] [default_destination|]]|] eqn:Hs;
    cbn [subscript rbind smart_keyword_mapping smart_default_destination];
    try discriminate.
  destruct (first_keyword lower (lower source_key) mapping) as [[k d]|];
    intros H; injection H as <-; cbn; rewrite ?Hs;
    repeat split; discriminate || reflexivity.
Qed.

(** A mapping whose first keyword is the empty string routes every key to
    that keyword's prefix, since the empty string occurs in every string
    ([str.lower] of the empty string being empty). *)
Theorem apply_smart_routing_empty_keyword (source_key : string) (rule : SmartRule)
  (destination : string) (rest : list (string * string))
  (default_destination : string) :
  lower "" = "" ->
  sr_smart_routing rule
  = Some (MkSmart (Some (("", destination) :: rest)) (Some default_destination)) ->
  apply_smart_routing lower source_key rule = Ok (enhanced_rule rule destination "").
Proof.
  intros Hl Hs. unfold apply_smart_routing. rewrite Hs.
  cbn [subscript rbind smart_keyword_mapping smart_default_destination first_keyword].
  rewrite Hl.
  assert (He : Py.contains "" (lower source_key) = true).
  { destruct (lower source_key); cbn [Py.contains]; rewrite prefix_empty; reflexivity. }
  rewrite He. reflexivity.
Qed.

(** The three subscripts of smart routing are evaluated before the
    search: a rule without ['smart_routing'], a configuration without
    ['keyword_mapping'] or without ['default_destination'] raises
    [KeyError], the last one even when a keyword would match. *)
Theorem apply_smart_routing_missing_key (source_key : string) (rule : SmartRule) :
  (sr_smart_routing rule = None ->
   apply_smart_routing lower source_key rule = Raise (KeyError "smart_routing")) /\
  (forall default_destination,
     sr_smart_routing rule = Some (MkSmart None default_destination) ->
     apply_smart_routing lower source_key rule = Raise (KeyError "keyword_mapping")) /\
  (forall mapping,
     sr_smart_routing rule = Some (MkSmart (Some mapping) None) ->
     apply_smart_routing lower source_key rule = Raise (KeyError "default_destination")).
Proof.
  unfold apply_smart_routing. repeat split.
  - intros ->. reflexivity.
  - intros d ->. reflexivity.
  - intros m ->. reflexivity.
Qed.

End SmartRoutingProperties.

(** * The fallback configuration *)

Section FallbackProperties.

Variable lower : string -> string.
Variable re_search : string -> string -> bool -> result bool.

(** The rule list of [get_fallback_config] is dead under the matcher of
    this file: its pattern type is not a valid one, so the resolver
    returns none on it for every key. *)
Theorem fallback_config_matches_nothing (source_key : string) :
  find_best_destination lower re_search source_key get_fallback_config = Ok None.
Proof.
  unfold find_best_destination.
  destruct (_ || _); [reflexivity|].
  apply first_match_none. intros q [<-|[]].
  apply matches_rule_invalid_pattern_type. reflexivity.
Qed.

End FallbackProperties.

(** * The properties above at sample inputs *)

Lemma pattern_without_final_separator_never_matches_witness :
  matches_rule Py.ascii_lower sample_re_search "Inbox/data.csv" "data.csv"
    (MkRule (Some "inbox") None None (Some "prefix") (Some "Inbox") None None
            (Some "dst") (Some "Out/") None None None)
  = Ok false.
Proof.
  apply pattern_without_final_separator_never_matches; [discriminate|reflexivity].
Defined.

Lemma matches_rule_without_filter_returns_witness :
  exists b,
    matches_rule Py.ascii_lower sample_re_search "Inbox/data.csv" "data.csv"
      (MkRule None None None None (Some "Inbox/") None
              (Some (simple_filter "starts_with" None)) None None None None None)
    = Ok b.
Proof. apply matches_rule_without_filter_returns. discriminate. Defined.

Lemma find_best_destination_sound_witness :
  is_hidden_key "Inbox/data.csv" = false /\
  rule_name (inbox_rule (Some "second")) <> None.
Proof.
  destruct (find_best_destination_sound Py.ascii_lower sample_re_search "Inbox/data.csv"
              [filtered_rule (Some (simple_filter "starts_with" (Some "x")));
               inbox_rule (Some "second")]
              (inbox_rule (Some "second")) eq_refl)
    as (H1 & H2 & _).
  split; assumption.
Defined.

Lemma resolved_rule_has_least_priority_witness :
  (priority_key (inbox_rule_with "early" (Some 1%Z) None None)
   <= priority_key (inbox_rule_with "late" (Some 2%Z) None None))%Z.
Proof.
  apply (resolved_rule_has_least_priority Py.ascii_lower sample_re_search "Inbox/data.csv"
           [inbox_rule_with "late" (Some 2%Z) None None;
            inbox_rule_with "early" (Some 1%Z) None None]).
  - reflexivity.
  - left. reflexivity.
  - reflexivity.
Defined.

Lemma unknown_filter_type_accepts_witness :
  check_filename_filter Py.ascii_lower sample_re_search "data.csv"
    (MkFilter (Some "startswith") None None None None [])
  = Ok true.
Proof.
  apply unknown_filter_type_accepts. cbn.
  intros [H|[H|[H|[H|[H|[H|[]]]]]]]; discriminate.
Defined.

Lemma multiple_patterns_without_patterns_witness :
  check_filename_filter Py.ascii_lower sample_re_search "data.csv"
    (MkFilter (Some "multiple_patterns") None None None None [])
  = Ok false.
Proof.
  exact (multiple_patterns_without_patterns Py.ascii_lower sample_re_search "data.csv"
           None None None None [] eq_refl).
Defined.

Lemma multiple_patterns_evaluates_every_pattern_witness :
  check_filename_filter Py.ascii_lower sample_re_search "data.csv"
    (MkFilter (Some "multiple_patterns") None None
       (Some [simple_filter "starts_with" (Some "data");
              simple_filter "ends_with" None])
       (Some "any") [])
  = Raise (KeyError "value").
Proof.
  apply (multiple_patterns_evaluates_every_pattern Py.ascii_lower sample_re_search "data.csv"
           None None [simple_filter "starts_with" (Some "data")]
           (simple_filter "ends_with" None) [] (Some "any") []).
  - intros p [<-|[]]. exists true. reflexivity.
  - reflexivity.
Defined.

Lemma types_without_leading_dot_reject_all_witness :
  check_file_type Py.ascii_lower "data.csv" ["csv"; "json"] = false.
Proof.
  apply types_without_leading_dot_reject_all;
    [exact ascii_lower_empty_iff|exact ascii_lower_leading_dot|discriminate|].
  intros t [<-|[<-|[]]]; split; (discriminate || reflexivity).
Defined.

Lemma check_file_type_exact_witness :
  (check_file_type Py.ascii_lower "README" [".csv"; ""] = true <->
   In "" [".csv"; ""]) /\
  check_file_type Py.ascii_lower "a.CSV" [".csv"] = true.
Proof.
  split.
  - apply (proj1 (proj2 (proj2 (check_file_type_exact Py.ascii_lower "README"
                                  [".csv"; ""]))));
      [exact ascii_lower_empty_iff|reflexivity|discriminate].
  - apply (proj2 (proj2 (proj2 (check_file_type_exact Py.ascii_lower "README"
                                  [".csv"; ""])))).
    reflexivity.
Defined.

Lemma timestamped_filename_keeps_file_type_witness :
  check_file_type Py.ascii_lower
    (timestamped_filename ("report" ++ "." ++ "csv") "20240102_030405") [".csv"]
  = check_file_type Py.ascii_lower ("report" ++ "." ++ "csv") [".csv"].
Proof.
  apply (proj1 (timestamped_filename_keeps_file_type Py.ascii_lower
                  "20240102_030405" [".csv"]));
    [reflexivity|discriminate].
Defined.

Lemma timestamped_filename_extension_witness :
  timestamped_filename ("archive.tar" ++ "." ++ "gz") "20240102_030405"
  = "archive.tar" ++ "_" ++ "20240102_030405" ++ "." ++ "gz".
Proof. apply timestamped_filename_extension; [reflexivity|discriminate]. Defined.

Lemma timestamped_filename_no_dot_witness :
  timestamped_filename "report" "20240102_030405" = "report" ++ "_" ++ "20240102_030405".
Proof. apply timestamped_filename_no_dot. reflexivity. Defined.

Lemma process_file_missing_key_witness :
  let host := sample_host (Ok 5%Z) (Ok []) (Ok tt) in
  let rule := MkRule None None None (Some "prefix") (Some "Inbox/") None None
                (Some "dst") (Some "Out/") None None None in
  exists st',
    process_file host "src" "Inbox/data.csv" rule (fresh_state host tt)
    = (Ok (Failure (s3_uri "src" "Inbox/data.csv")
             ("Failed to process " ++ "Inbox/data.csv" ++ ": '" ++ "name" ++ "'")), st') /\
    st_calls st' = st_calls (fresh_state host tt).
Proof.
  intros host rule.
  apply (process_file_missing_key host "src" "Inbox/data.csv" rule
           (fresh_state host tt)).
  right. left. reflexivity.
Defined.

Lemma process_file_success_reports_the_copy_witness :
  let host := sample_host (Ok 5%Z) (Ok []) (Ok tt) in
  rule_name (inbox_rule_with "inbox" (Some 3%Z) (Some true) None) = Some "inbox" /\
  In (DeleteObject "src" "Inbox/data.csv")
     (st_calls (snd (process_file host "src" "Inbox/data.csv"
                       (inbox_rule_with "inbox" (Some 3%Z) (Some true) None)
                       (fresh_state host tt)))).
Proof.
  intros host.
  destruct (process_file_success_reports_the_copy host "src" "Inbox/data.csv"
              (inbox_rule_with "inbox" (Some 3%Z) (Some true) None)
              (fresh_state host tt) _ _ _ _ _ eq_refl)
    as (_ & Hn & _ & _ & Hd).
  split; [exact Hn|]. apply Hd. reflexivity.
Defined.

Lemma process_file_copy_refused_witness :
  let host := sample_host (Ok 5%Z) (Ok []) (Raise (ClientError "AccessDenied")) in
  exists request st',
    process_file host "src" "Inbox/data.csv"
      (inbox_rule_with "inbox" None (Some true) None) (fresh_state host tt)
    = (Ok (Failure (s3_uri "src" "Inbox/data.csv")
             ("Failed to process " ++ "Inbox/data.csv" ++ ": "
              ++ exn_str (ClientError "AccessDenied"))), st') /\
    st_calls st' = (st_calls (fresh_state host tt) ++ [CopyObject request])%list.
Proof.
  intros host.
  apply (process_file_copy_refused host "src" "Inbox/data.csv"
           (inbox_rule_with "inbox" None (Some true) None) (fresh_state host tt)
           (ClientError "AccessDenied"));
    [intros w request; reflexivity|discriminate|discriminate|discriminate].
Defined.

Lemma process_file_delete_refused_witness :
  let host := sample_host_deleting (Ok tt) (Raise (ClientError "AccessDenied")) in
  exists request st',
    process_file host "src" "Inbox/data.csv"
      (inbox_rule_with "inbox" None (Some true) None) (fresh_state host tt)
    = (Ok (Failure (s3_uri "src" "Inbox/data.csv")
             ("Failed to process " ++ "Inbox/data.csv" ++ ": "
              ++ exn_str (ClientError "AccessDenied"))), st') /\
    st_calls st'
    = (st_calls (fresh_state host tt)
       ++ [CopyObject request; DeleteObject "src" "Inbox/data.csv"])%list.
Proof.
  intros host.
  apply (process_file_delete_refused host "src" "Inbox/data.csv"
           (inbox_rule_with "inbox" None (Some true) None) (fresh_state host tt)
           (ClientError "AccessDenied"));
    [intros w request; reflexivity|intros w b k; reflexivity|reflexivity
    |discriminate|discriminate|discriminate].
Defined.

Lemma process_file_copy_metadata_witness :
  let host := sample_host (Ok 5%Z) (Ok []) (Ok tt) in
  exists request,
    In (CopyObject request)
       (st_calls (snd (process_file host "src" "Inbox/data.csv"
                         (inbox_rule_with "inbox" (Some 3%Z) None (Some "invoice"))
                         (fresh_state host tt)))) /\
    In ("matched-keyword", "invoice") (copy_metadata request) /\
    In ("rule-priority", "3") (copy_metadata request).
Proof.
  intros host.
  destruct (process_file_copy_metadata host "src" "Inbox/data.csv" "Out/" "inbox" "dst"
              (inbox_rule_with "inbox" (Some 3%Z) None (Some "invoice"))
              (fresh_state host tt) eq_refl eq_refl eq_refl)
    as (request & Hin & _ & _ & _ & _ & Hp & Hk).
  exists request. split; [exact Hin|]. split; [apply Hk; reflexivity|exact Hp].
Defined.

Lemma load_cache_hit_witness :
  let host := sample_host (Ok 5%Z) (Ok []) (Ok tt) in
  load_routing_config host
    (MkState (tt : world host) (Some [inbox_rule (Some "inbox")]) (Some 7%Z) [])
  = (Ok [inbox_rule (Some "inbox")],
     MkState (tt : world host) (Some [inbox_rule (Some "inbox")]) (Some 7%Z)
       [HeadObject "config-bucket" "config/routing-rules.json"]).
Proof.
  intros host.
  apply (load_cache_hit host
           (MkState (tt : world host) (Some [inbox_rule (Some "inbox")]) (Some 7%Z) [])
           5%Z 7%Z tt (inbox_rule (Some "inbox")) []);
    [reflexivity|reflexivity|reflexivity|lia].
Defined.

Lemma fresh_load_sorts_and_caches_witness :
  let document := [inbox_rule_with "late" None None None;
                   inbox_rule_with "early" (Some 1%Z) None None] in
  let host := sample_host (Ok 5%Z) (Ok document) (Ok tt) in
  exists rules st1,
    load_routing_config host (fresh_state host tt) = (Ok rules, st1) /\
    cached_config st1 = Some rules /\
    StronglySorted (key_le priority_key) rules.
Proof.
  intros document host.
  destruct (fresh_load_sorts_and_caches host (fresh_state host tt) 5%Z tt tt
              "document" document eq_refl eq_refl eq_refl eq_refl)
    as (rules & st1 & Hl & Hc & _ & _ & Hs & _).
  exists rules, st1. repeat split; assumption.
Defined.

Lemma second_load_uses_the_cache_witness :
  let document := [inbox_rule (Some "inbox")] in
  let host := sample_host (Ok 5%Z) (Ok document) (Ok tt) in
  let st1 := snd (load_routing_config host (fresh_state host tt)) in
  st_calls (snd (load_routing_config host st1))
  = (st_calls st1 ++ [HeadObject (config_bucket host) (config_key host)])%list.
Proof.
  intros document host.
  destruct (second_load_uses_the_cache host (fresh_state host tt) 5%Z 5%Z tt tt tt
              "document" document eq_refl eq_refl eq_refl eq_refl)
    as (_ & _ & Hcalls & _); [discriminate|reflexivity|lia|].
  exact Hcalls.
Defined.

Lemma hidden_batch_is_ignored_witness :
  let host := sample_host (Ok 5%Z)
                (Ok [filtered_rule (Some (simple_filter "starts_with" None))])
                (Ok tt) in
  fst (lambda_handler host
         [MkEvent "src" "Inbox/.keep"; MkEvent "src" "Inbox/Sub/"]
         (fresh_state host tt))
  = Ok (MkResponse 200 0 0 [] []).
Proof.
  intros host.
  rewrite (hidden_batch_is_ignored host
             [MkEvent "src" "Inbox/.keep"; MkEvent "src" "Inbox/Sub/"]
             (fresh_state host tt)); [reflexivity|].
  intros record [<-|[<-|[]]]; right; reflexivity.
Defined.

Lemma apply_smart_routing_first_keyword_witness :
  apply_smart_routing Py.ascii_lower "Inbox/Monthly-REPORT.csv" smart_rule
  = Ok (enhanced_rule smart_rule "Reports/" "report").
Proof.
  apply (proj1 (apply_smart_routing_first_keyword Py.ascii_lower
                  "Inbox/Monthly-REPORT.csv" smart_rule
                  [("invoice", "Invoices/"); ("report", "Reports/")] "Other/" eq_refl)
               [("invoice", "Invoices/")] "report" "Reports/" []);
    [reflexivity| |reflexivity].
  intros k d [H|[]]. injection H as <- <-. reflexivity.
Defined.

Lemma apply_smart_routing_empty_keyword_witness :
  apply_smart_routing Py.ascii_lower "Inbox/data.csv"
    (MkSmartRule (inbox_rule (Some "smart"))
       (Some (MkSmart (Some [("", "All/"); ("report", "Reports/")]) (Some "Other/"))))
  = Ok (enhanced_rule
          (MkSmartRule (inbox_rule (Some "smart"))
             (Some (MkSmart (Some [("", "All/"); ("report", "Reports/")])
                            (Some "Other/"))))
          "All/" "").
Proof.
  apply (apply_smart_routing_empty_keyword Py.ascii_lower "Inbox/data.csv" _
           "All/" [("report", "Reports/")] "Other/"); reflexivity.
Defined.

Lemma apply_smart_routing_changes_two_keys_witness :
  rule_matched_keyword (sr_rule (enhanced_rule smart_rule "Other/" "default")) <> None /\
  rule_name (sr_rule (enhanced_rule smart_rule "Other/" "default"))
  = rule_name (sr_rule smart_rule).
Proof.
  destruct (apply_smart_routing_changes_two_keys Py.ascii_lower "Inbox/data.csv" smart_rule
              (enhanced_rule smart_rule "Other/" "default") eq_refl)
    as (Hk & _ & _ & Hn & _).
  split; assumption.
Defined.
